(** * Order execution engine: lifecycle, routing and ingress

    A shallow embedding of the order execution engine:
    - the mock DEX router ([src/dex/mockDexRouter.ts]) and the copy of it
      that [worker.js] carries,
    - the lifecycle engine [processOrder] of the TypeScript worker (the
      module that imports [MockDexRouter] and [updateOrderStatus]),
    - the job processor of [worker.js] with [emitStatus] and the adapters of
      [lib/active-orders.js] and [lib/db-client.js],
    - the [POST /api/orders/execute] handler of the Fastify server.

    JavaScript numbers are IEEE binary64 values and are modelled by Rocq's
    primitive floats, so that an arithmetic expression below evaluates to
    the number the program computes.  Every call of [Math.random()],
    [Date.now()], [crypto.randomBytes] and [uuidv4()] is an explicit argument
    of the function that performs it.  The [await sleep(..)] calls and the
    [setTimeout] pause only delay a result; time is not part of the model,
    and neither is console output.

    Part I holds the definitions, Part II the theorems. *)

From Stdlib Require Import Floats ZArith NArith List String Ascii Bool Lia.
From Stdlib Require Import DecimalString DecimalN.
From Stdlib.Strings Require Import Byte.
Import ListNotations.

Set Warnings "-inexact-float,-register-all".

Local Open Scope string_scope.
Local Open Scope list_scope.

(** * Part I: the program *)

(** ** Thrown values and settled promises *)

(** What a [catch (err)] clause receives here: an [Error] instance with its
    [name] and [message], or a primitive other than [null] and [undefined],
    given by its [String(..)] rendering (a primitive has no [message]). *)
Inductive Thrown : Type :=
| ErrorObj (name message : string)
| ThrownPrim (rendering : string).

Definition isEmpty (s : string) : bool :=
  match s with EmptyString => true | String _ _ => false end.

(** [err.message] *)
Definition messageOf (err : Thrown) : option string :=
  match err with
  | ErrorObj _ m => Some m
  | ThrownPrim _ => None
  end.

(** [String(err)]: [Error.prototype.toString] for an instance. *)
Definition toString (err : Thrown) : string :=
  match err with
  | ErrorObj n m =>
      if isEmpty n then m else if isEmpty m then n else n ++ ": " ++ m
  | ThrownPrim s => s
  end.

(** [err?.message || String(err)]: the empty string and [undefined] are
    falsy. *)
Definition reasonOf (err : Thrown) : string :=
  match messageOf err with
  | Some m => if isEmpty m then toString err else m
  | None => toString err
  end.

(** A settled promise. *)
Inductive Outcome (A : Type) : Type :=
| Resolved (a : A)
| Rejected (err : Thrown).
Arguments Resolved {A} a.
Arguments Rejected {A} err.

(** A non-negative integer inside a template literal: its decimal digits. *)
Definition decimal (n : N) : string :=
  NilEmpty.string_of_uint (N.to_uint n).

(** ** Data model *)

Inductive DexTag : Type := Raydium | Meteora.

Definition dexName (d : DexTag) : string :=
  match d with Raydium => "raydium" | Meteora => "meteora" end.

(** [dex === 'raydium'] *)
Definition isRaydium (d : DexTag) : bool :=
  match d with Raydium => true | Meteora => false end.

Record Quote : Type := { price : float; fee : float; dex : DexTag }.

Record SwapResult : Type := { txHash : string; executedPrice : float }.

(** [OrderRequest] of the models file. *)
Record OrderRequest : Type := {
  type : string;
  tokenIn : string;
  tokenOut : string;
  amountIn : float;
  slippage : option float
}.

Inductive Status : Type :=
| Pending | Routing | Building | Submitted | Confirmed | Failed.

Definition statusName (s : Status) : string :=
  match s with
  | Pending => "pending"
  | Routing => "routing"
  | Building => "building"
  | Submitted => "submitted"
  | Confirmed => "confirmed"
  | Failed => "failed"
  end.

Definition status_eqb (a b : Status) : bool :=
  match a, b with
  | Pending, Pending | Routing, Routing | Building, Building
  | Submitted, Submitted | Confirmed, Confirmed | Failed, Failed => true
  | _, _ => false
  end.

(** The object handed to [emitFn]: a [status] and the properties some
    statuses add. *)
Record Payload : Type := {
  status : Status;
  chosen : option DexTag;
  quoted : option float;          (* the [price] property *)
  settlement : option string;     (* the [txHash] property *)
  realized : option float;        (* the [executedPrice] property *)
  error : option string
}.

Definition statusOnly (s : Status) : Payload :=
  {| status := s; chosen := None; quoted := None; settlement := None;
     realized := None; error := None |}.

Definition routed (q : Quote) : Payload :=
  {| status := Routing; chosen := Some (dex q); quoted := Some (price q);
     settlement := None; realized := None; error := None |}.

Definition confirmed (r : SwapResult) : Payload :=
  {| status := Confirmed; chosen := None; quoted := None;
     settlement := Some (txHash r); realized := Some (executedPrice r);
     error := None |}.

Definition failed (reason : string) : Payload :=
  {| status := Failed; chosen := None; quoted := None; settlement := None;
     realized := None; error := Some reason |}.

(** ** The mock DEX router ([mockDexRouter.ts]) *)

Module MockDexRouter.
Local Open Scope float_scope.

Definition basePrice : float := 100.

(** [u] is the value of the [Math.random()] call in the price. *)
Definition getRaydiumQuote (u : float)
    (_tokenIn _tokenOut : string) (_amount : float) : Quote :=
  {| price := basePrice * (0.98 + u * 0.04); fee := 0.003; dex := Raydium |}.

Definition getMeteoraQuote (u : float)
    (_tokenIn _tokenOut : string) (_amount : float) : Quote :=
  {| price := basePrice * (0.97 + u * 0.05); fee := 0.002; dex := Meteora |}.

(** [uuid] is what [uuidv4()] returned, [u] the [Math.random()] of the
    slippage term. *)
Definition executeSwap (uuid : string) (u : float)
    (dex : DexTag) (_order : OrderRequest) : SwapResult :=
  {| txHash := uuid;
     executedPrice :=
       basePrice * (if isRaydium dex then 1.0 else 0.995)
                 * (1 + (u - 0.5) * 0.01) |}.
End MockDexRouter.

(** The router as [processOrder] sees it: three asynchronous methods.  The
    tests replace them by stubs that resolve to fixed quotes or reject. *)
Record DexRouter : Type := {
  getRaydiumQuote : string -> string -> float -> Outcome Quote;
  getMeteoraQuote : string -> string -> float -> Outcome Quote;
  executeSwap : DexTag -> OrderRequest -> Outcome SwapResult
}.

(** The random draws one order consumes from a [MockDexRouter]. *)
Record Draws : Type := {
  raydiumDraw : float;
  meteoraDraw : float;
  uuidDraw : string;
  slipDraw : float
}.

Definition mockDex (d : Draws) : DexRouter :=
  {| getRaydiumQuote := fun a b c =>
       Resolved (MockDexRouter.getRaydiumQuote (raydiumDraw d) a b c);
     getMeteoraQuote := fun a b c =>
       Resolved (MockDexRouter.getMeteoraQuote (meteoraDraw d) a b c);
     executeSwap := fun t o =>
       Resolved (MockDexRouter.executeSwap (uuidDraw d) (slipDraw d) t o) |}.

(** ** The engine monad: emitted events and rejection *)

(** An asynchronous computation yields the events it emitted, in order, and
    how it settled.  [E] is the type of events. *)
Definition Eng (E A : Type) : Type := (list E * Outcome A)%type.

Definition ret {E A} (a : A) : Eng E A := ([], Resolved a).

Definition throw {E A} (err : Thrown) : Eng E A := ([], Rejected err).

Definition bind {E A B} (m : Eng E A) (k : A -> Eng E B) : Eng E B :=
  let (t, o) := m in
  match o with
  | Resolved a => let (t', o') := k a in (t ++ t', o')
  | Rejected err => (t, Rejected err)
  end.

(** [try { body } catch (err) { handler }] *)
Definition tryCatch {E A} (body : Eng E A) (handler : Thrown -> Eng E A)
  : Eng E A :=
  let (t, o) := body in
  match o with
  | Resolved a => (t, Resolved a)
  | Rejected err => let (t', o') := handler err in (t ++ t', o')
  end.

Definition emit {E} (e : E) : Eng E unit := ([e], Resolved tt).

Definition await {E A} (o : Outcome A) : Eng E A := ([], o).

(** An awaited call whose value is dropped. *)
Definition discard {E A} (m : Eng E A) : Eng E unit :=
  bind m (fun _ => ret tt).

Declare Scope eng_scope.
Delimit Scope eng_scope with eng.
Notation "x <- m ;; k" := (bind m (fun x => k))
  (at level 61, m at next level, right associativity) : eng_scope.
Notation "m ;; k" := (bind m (fun _ => k))
  (at level 61, right associativity) : eng_scope.

(** [Promise.all] of two promises: resolves to both values, rejects with the
    rejection that happens first.  When both reject, [firstWins] tells
    whether the first promise settled before the second. *)
Definition promiseAll2 {A B} (firstWins : bool)
    (a : Outcome A) (b : Outcome B) : Outcome (A * B) :=
  match a, b with
  | Resolved x, Resolved y => Resolved (x, y)
  | Rejected e, Resolved _ => Rejected e
  | Resolved _, Rejected e => Rejected e
  | Rejected e1, Rejected e2 => Rejected (if firstWins then e1 else e2)
  end.

(** ** The lifecycle engine ([processOrder] of the TypeScript worker) *)

(** What surrounds one run of the engine: the router, the persistence call
    [updateOrderStatus(id, status, lastError?)] of the db module (a bare
    [await pool.query(..)], so it rejects when the query does), and the
    order in which two rejecting quote calls settle. *)
Record Env : Type := {
  router : DexRouter;
  updateOrderStatus : string -> Status -> option string -> Outcome unit;
  raydiumSettlesFirst : bool
}.

(** The price comparator: [r.price <= m.price ? r : m]. *)
Definition chooseQuote (r m : Quote) : Quote :=
  if (price r <=? price m)%float then r else m.

(** [const other = r.price <= m.price ? m : r] of worker.js. *)
Definition otherQuote (r m : Quote) : Quote :=
  if (price r <=? price m)%float then m else r.

(** The observer of the tests: it records every payload it is handed. *)
Definition emitFn (orderId : string) (p : Payload) : Eng Payload unit :=
  emit p.

Section Engine.
Variable env : Env.
Local Open Scope eng_scope.

Definition processOrder (data : OrderRequest) (orderId : string)
  : Eng Payload string :=
  tryCatch
    (emitFn orderId (statusOnly Pending) ;;
     await (updateOrderStatus env orderId Pending None) ;;
     emitFn orderId (statusOnly Routing) ;;
     rm <- await (promiseAll2 (raydiumSettlesFirst env)
             (getRaydiumQuote (router env)
                (tokenIn data) (tokenOut data) (amountIn data))
             (getMeteoraQuote (router env)
                (tokenIn data) (tokenOut data) (amountIn data))) ;;
     let chosen := chooseQuote (fst rm) (snd rm) in
     emitFn orderId (routed chosen) ;;
     await (updateOrderStatus env orderId Routing None) ;;
     emitFn orderId (statusOnly Building) ;;
     await (updateOrderStatus env orderId Building None) ;;
     emitFn orderId (statusOnly Submitted) ;;
     exec <- await (executeSwap (router env) (dex chosen) data) ;;
     await (updateOrderStatus env orderId Submitted None) ;;
     emitFn orderId (confirmed exec) ;;
     await (updateOrderStatus env orderId Confirmed None) ;;
     ret (txHash exec))
    (fun err =>
       let reason := reasonOf err in
       emitFn orderId (failed reason) ;;
       await (updateOrderStatus env orderId Failed (Some reason)) ;;
       throw err).
End Engine.

(** The engine of [standalone-test.ts]: the same steps with no persistence
    call. *)
Module StandaloneTest.
Section Engine.
Variable router : DexRouter.               (* [new MockDexRouter()] *)
Variable raydiumSettlesFirst : bool.
Local Open Scope eng_scope.

Definition processOrder (data : OrderRequest) (orderId : string)
  : Eng Payload string :=
  tryCatch
    (emitFn orderId (statusOnly Pending) ;;
     emitFn orderId (statusOnly Routing) ;;
     rm <- await (promiseAll2 raydiumSettlesFirst
             (getRaydiumQuote router
                (tokenIn data) (tokenOut data) (amountIn data))
             (getMeteoraQuote router
                (tokenIn data) (tokenOut data) (amountIn data))) ;;
     let chosen := chooseQuote (fst rm) (snd rm) in
     emitFn orderId (routed chosen) ;;
     emitFn orderId (statusOnly Building) ;;
     emitFn orderId (statusOnly Submitted) ;;
     exec <- await (executeSwap router (dex chosen) data) ;;
     emitFn orderId (confirmed exec) ;;
     ret (txHash exec))
    (fun err =>
       let reason := reasonOf err in
       emitFn orderId (failed reason) ;;
       throw err).
End Engine.
End StandaloneTest.

(** What a subscriber tells apart in an event: its status, and whether it
    names a chosen source. *)
Definition kind (p : Payload) : Status * bool :=
  (status p, match chosen p with Some _ => true | None => false end).

Definition lifecycle : list (Status * bool) :=
  [ (Pending, false); (Routing, false); (Routing, true);
    (Building, false); (Submitted, false); (Confirmed, false) ].

(** The [price] property of the third event of a run. *)
Definition quotedPrice (run : Eng Payload string) : option float :=
  match nth_error (fst run) 2 with
  | Some p => quoted p
  | None => None
  end.

(** The [executedPrice] property of the sixth event of a run. *)
Definition realizedPrice (run : Eng Payload string) : option float :=
  match nth_error (fst run) 5 with
  | Some p => realized p
  | None => None
  end.

(** [Math.abs((exec.executedPrice - quote.price) / quote.price)] of the
    slippage test. *)
Definition slippageRatio (executed quote : float) : float :=
  abs ((executed - quote) / quote)%float.

(** The quote a run on the [MockDexRouter] chooses, by its draws. *)
Definition mockChoice (d : Draws) (data : OrderRequest) : Quote :=
  chooseQuote
    (MockDexRouter.getRaydiumQuote (raydiumDraw d)
       (tokenIn data) (tokenOut data) (amountIn data))
    (MockDexRouter.getMeteoraQuote (meteoraDraw d)
       (tokenIn data) (tokenOut data) (amountIn data)).

(** ** The queue worker ([worker.js]) *)

Module WorkerJs.

(** *** Its copy of the router *)

Module MockDexRouter.
Local Open Scope float_scope.

Definition basePrice : float := 100.

Definition getRaydiumQuote (u : float)
    (tokenIn tokenOut : string) (amount : float) : Quote :=
  {| price := basePrice * (0.98 + u * 0.04); fee := 0.003; dex := Raydium |}.

Definition getMeteoraQuote (u : float)
    (tokenIn tokenOut : string) (amount : float) : Quote :=
  {| price := basePrice * (0.97 + u * 0.05); fee := 0.002; dex := Meteora |}.

(** Four bytes, as [crypto.randomBytes(4)] returns them. *)
Definition Bytes4 : Type := (byte * byte * byte * byte)%type.

Definition bytesOf (r : Bytes4) : list byte :=
  let '(a, b, c, d) := r in [a; b; c; d].

Definition hexDigit (n : N) : ascii :=
  match n with
  | 0 => "0" | 1 => "1" | 2 => "2" | 3 => "3" | 4 => "4" | 5 => "5"
  | 6 => "6" | 7 => "7" | 8 => "8" | 9 => "9" | 10 => "a" | 11 => "b"
  | 12 => "c" | 13 => "d" | 14 => "e" | _ => "f"
  end%N%char.

Definition hexOfByte (b : byte) : string :=
  String (hexDigit (Byte.to_N b / 16))
    (String (hexDigit (Byte.to_N b mod 16)) EmptyString).

(** [buf.toString('hex')] *)
Fixpoint toHex (bs : list byte) : string :=
  match bs with
  | [] => EmptyString
  | b :: rest => (hexOfByte b ++ toHex rest)%string
  end.

(** [now] is the value of [Date.now()], [rnd] that of
    [crypto.randomBytes(4)], [u] the [Math.random()] of the slippage term;
    the identifier is
    [`${Date.now()}-${crypto.randomBytes(4).toString('hex')}`]. *)
Definition executeSwap (now : N) (rnd : Bytes4) (u : float)
    (dex : DexTag) (order : OrderRequest) : SwapResult :=
  {| txHash := (decimal now ++ "-" ++ toHex (bytesOf rnd))%string;
     executedPrice :=
       basePrice * (if isRaydium dex then 1.0 else 0.995)
                 * (1 + (u - 0.5) * 0.01) |}.
End MockDexRouter.

(** One call of [executeSwap] with everything it reads. *)
Record SwapCall : Type := {
  clock : N;
  random : MockDexRouter.Bytes4;
  slip : float;
  target : DexTag;
  order : OrderRequest
}.

Definition runSwap (c : SwapCall) : SwapResult :=
  MockDexRouter.executeSwap (clock c) (random c) (slip c) (target c) (order c).

(** The identifiers returned over a process lifetime, call after call. *)
Definition lifetime (calls : list SwapCall) : list string :=
  map (fun c => txHash (runSwap c)) calls.

(** What decides an identifier: the clock reading and the random bytes. *)
Definition seed (c : SwapCall) : N * MockDexRouter.Bytes4 :=
  (clock c, random c).

(** *** Status updates and the job processor *)

(** The [details] argument of [emitStatus]. *)
Record Details : Type := {
  d_dex : option DexTag;
  d_price : option string;
  d_txHash : option string;
  d_executedPrice : option string;
  d_error : option string
}.

Definition noDetails : Details :=
  {| d_dex := None; d_price := None; d_txHash := None;
     d_executedPrice := None; d_error := None |}.

(** The [{ success, error }] objects the adapters return. *)
Record Ack : Type := { success : bool; ackError : option string }.

Inductive Sql : Type :=
| UpdateStatus (s : Status) (d : Details)
| RecordError (message : option string).

(** Redis and PostgreSQL as the adapters call them.  [jsonParse] stands for
    [JSON.parse] on a cached entry: it throws, or tells whether the parsed
    value is truthy. *)
Record Backend : Type := {
  redisGet : string -> Outcome (option string);
  redisSetex : string -> Outcome unit;
  redisDel : string -> Outcome unit;
  redisSrem : string -> Outcome unit;
  jsonParse : string -> Outcome bool;
  poolQuery : Sql -> string -> Outcome unit
}.

(** One event per [emitStatus] call: the status line it logs. *)
Definition Event : Type := (Status * Details)%type.

Definition ORDER_PREFIX : string := "order:".

Section Worker.
Variable backend : Backend.
Variable toFixed2 : float -> string.             (* [x.toFixed(2)] *)
Variable router : DexRouter.                     (* [new MockDexRouter()] *)
Variable updateProgress : nat -> Outcome unit.   (* [job.updateProgress] *)
Variable raydiumSettlesFirst : bool.
Local Open Scope eng_scope.

(** [lib/active-orders.js] *)
Definition getActiveOrder (orderId : string) : Eng Event (option bool) :=
  tryCatch
    (data <- await (redisGet backend (ORDER_PREFIX ++ orderId)%string) ;;
     match data with
     | Some raw =>
         if isEmpty raw then ret None
         else (v <- await (jsonParse backend raw) ;; ret (Some v))
     | None => ret None
     end)
    (fun _ => ret None).

Definition updateActiveOrderStatus (orderId : string) (status : Status)
    (details : Details) : Eng Event Ack :=
  tryCatch
    (order <- getActiveOrder orderId ;;
     match order with
     | Some true =>
         await (redisSetex backend (ORDER_PREFIX ++ orderId)%string) ;;
         ret {| success := true; ackError := None |}
     | _ => ret {| success := false; ackError := Some "Order not found" |}
     end)
    (fun err => ret {| success := false; ackError := messageOf err |}).

Definition removeActiveOrder (orderId : string) : Eng Event Ack :=
  tryCatch
    (await (redisDel backend (ORDER_PREFIX ++ orderId)%string) ;;
     await (redisSrem backend orderId) ;;
     ret {| success := true; ackError := None |})
    (fun err => ret {| success := false; ackError := messageOf err |}).

(** [lib/db-client.js] *)
Definition updateOrderStatus (orderId : string) (status : Status)
    (details : Details) : Eng Event Ack :=
  tryCatch
    (await (poolQuery backend (UpdateStatus status details) orderId) ;;
     ret {| success := true; ackError := None |})
    (fun err => ret {| success := false; ackError := messageOf err |}).

Definition recordOrderError (orderId : string) (error : option string)
  : Eng Event unit :=
  tryCatch (await (poolQuery backend (RecordError error) orderId))
           (fun _ => ret tt).

(** [emitStatus]: cache, then database, each inside its own [try]. *)
Definition emitStatus (orderId : string) (status : Status)
    (details : Details) : Eng Event unit :=
  tryCatch (discard (updateActiveOrderStatus orderId status details))
           (fun _ => ret tt) ;;
  tryCatch (discard (updateOrderStatus orderId status details))
           (fun _ => ret tt) ;;
  emit (status, details).

Definition processOrder (data : OrderRequest) (orderId : string)
  : Eng Event string :=
  tryCatch
    (emitStatus orderId Pending noDetails ;;
     await (updateProgress 20) ;;
     rm <- await (promiseAll2 raydiumSettlesFirst
             (getRaydiumQuote router
                (tokenIn data) (tokenOut data) (amountIn data))
             (getMeteoraQuote router
                (tokenIn data) (tokenOut data) (amountIn data))) ;;
     let chosen := chooseQuote (fst rm) (snd rm) in
     emitStatus orderId Routing
       {| d_dex := Some (dex chosen);
          d_price := Some (toFixed2 (price chosen));
          d_txHash := None; d_executedPrice := None; d_error := None |} ;;
     await (updateProgress 40) ;;
     emitStatus orderId Building noDetails ;;
     await (updateProgress 60) ;;
     exec <- await (executeSwap router (dex chosen) data) ;;
     emitStatus orderId Submitted
       {| d_dex := None; d_price := None;
          d_txHash := Some (substring 0 24 (txHash exec) ++ "...")%string;
          d_executedPrice := None; d_error := None |} ;;
     await (updateProgress 80) ;;
     emitStatus orderId Confirmed
       {| d_dex := None; d_price := None;
          d_txHash := Some (txHash exec);
          d_executedPrice := Some (toFixed2 (executedPrice exec));
          d_error := None |} ;;
     discard (removeActiveOrder orderId) ;;
     await (updateProgress 100) ;;
     ret (txHash exec))
    (fun err =>
       emitStatus orderId Failed
         {| d_dex := None; d_price := None; d_txHash := None;
            d_executedPrice := None; d_error := messageOf err |} ;;
       tryCatch (recordOrderError orderId (messageOf err)) (fun _ => ret tt) ;;
       tryCatch (discard (removeActiveOrder orderId)) (fun _ => ret tt) ;;
       throw err).
End Worker.

(** *** Reading an identifier back *)

Definition unhexDigit (c : ascii) : option N :=
  (if c =? "0" then Some 0 else if c =? "1" then Some 1
   else if c =? "2" then Some 2 else if c =? "3" then Some 3
   else if c =? "4" then Some 4 else if c =? "5" then Some 5
   else if c =? "6" then Some 6 else if c =? "7" then Some 7
   else if c =? "8" then Some 8 else if c =? "9" then Some 9
   else if c =? "a" then Some 10 else if c =? "b" then Some 11
   else if c =? "c" then Some 12 else if c =? "d" then Some 13
   else if c =? "e" then Some 14 else if c =? "f" then Some 15
   else None)%char%N.

Fixpoint fromHex (s : string) : option (list byte) :=
  match s with
  | EmptyString => Some []
  | String hi (String lo rest) =>
      match unhexDigit hi, unhexDigit lo, fromHex rest with
      | Some h, Some l, Some bs =>
          option_map (fun b => b :: bs) (Byte.of_N (h * 16 + l))
      | _, _, _ => None
      end
  | String _ EmptyString => None
  end.

(** No dash among the characters of [s]. *)
Fixpoint dashFree (s : string) : bool :=
  match s with
  | EmptyString => true
  | String c rest => negb (c =? "-")%char && dashFree rest
  end.

End WorkerJs.

(** ** The submit endpoint ([POST /api/orders/execute]) *)

Module Ingress.

(** A parsed JSON body; [JUndefined] is an absent property, and a parsed
    object holds each key once. *)
Inductive JsVal : Type :=
| JUndefined
| JNull
| JBool (b : bool)
| JNum (x : float)
| JStr (s : string)
| JArr (items : list JsVal)
| JObj (fields : list (string * JsVal)).

(** [!!v] *)
Definition truthy (v : JsVal) : bool :=
  match v with
  | JUndefined | JNull => false
  | JBool b => b
  | JNum x => negb ((x =? 0)%float || is_nan x)
  | JStr s => negb (isEmpty s)
  | JArr _ | JObj _ => true
  end.

Fixpoint lookup (k : string) (fields : list (string * JsVal)) : JsVal :=
  match fields with
  | [] => JUndefined
  | (k', v) :: rest => if (k =? k')%string then v else lookup k rest
  end.

(** [v.k] for a truthy [v]; an array or a primitive has none of the
    properties read here. *)
Definition get (v : JsVal) (k : string) : JsVal :=
  match v with
  | JObj fields => lookup k fields
  | _ => JUndefined
  end.

(** [v !== 'market'] *)
Definition notMarket (v : JsVal) : bool :=
  match v with
  | JStr s => negb (s =? "market")%string
  | _ => true
  end.

(** The guard of the handler:
    [!body || body.type !== 'market' || !body.tokenIn || !body.tokenOut
     || !body.amountIn]. *)
Definition rejects (body : JsVal) : bool :=
  negb (truthy body)
  || notMarket (get body "type")
  || negb (truthy (get body "tokenIn"))
  || negb (truthy (get body "tokenOut"))
  || negb (truthy (get body "amountIn")).

Inductive Reply : Type :=
| Reply400 (error : string)
| Reply200 (orderId wsUrl : string).

(** The calls the handler makes to its collaborators. *)
Inductive Call : Type :=
| SaveOrder (orderId : string) (payload : JsVal) (status : string)
| AddOrder (jobId : string) (payload : JsVal).

Record Services : Type := {
  PORT : N;
  uuidv4 : string;
  saveOrder : string -> JsVal -> string -> Outcome unit;
  addOrder : string -> JsVal -> Outcome unit
}.

Definition invalidOrder : string :=
  "invalid order. required: type=market, tokenIn, tokenOut, amountIn".

Section Handler.
Variable sv : Services.
Local Open Scope eng_scope.

Definition postExecute (body : JsVal) : Eng Call Reply :=
  if rejects body then ret (Reply400 invalidOrder)
  else
    let orderId := uuidv4 sv in
    emit (SaveOrder orderId body "queued") ;;
    await (saveOrder sv orderId body "queued") ;;
    emit (AddOrder orderId body) ;;
    await (addOrder sv orderId body) ;;
    let wsUrl := ("ws://localhost:" ++ decimal (PORT sv)
                  ++ "/api/orders/execute?orderId=" ++ orderId)%string in
    ret (Reply200 orderId wsUrl).
End Handler.

(** The request shape in the words of the specification: kind "market",
    tokenIn, tokenOut and amountIn present, and amountIn > 0. *)
Definition present (v : JsVal) : bool :=
  match v with JUndefined => false | _ => true end.

Definition specValid (body : JsVal) : bool :=
  negb (notMarket (get body "type"))
  && present (get body "tokenIn")
  && present (get body "tokenOut")
  && match get body "amountIn" with
     | JNum x => (0 <? x)%float
     | _ => false
     end.

End Ingress.

(** ** Stubs and inputs of the tests and examples *)

(** The stubs of the routing and failure tests: fixed quotes of the two
    sources, and a fixed outcome of [executeSwap]. *)
Definition stubDex (pr pm : float) (swap : Outcome SwapResult) : DexRouter :=
  {| getRaydiumQuote := fun _ _ _ =>
       Resolved {| price := pr; fee := 0.003; dex := Raydium |};
     getMeteoraQuote := fun _ _ _ =>
       Resolved {| price := pm; fee := 0.002; dex := Meteora |};
     executeSwap := fun _ _ => swap |}.

(** A persistence layer whose every write resolves (the tests' mock). *)
Definition dbUp : string -> Status -> option string -> Outcome unit :=
  fun _ _ _ => Resolved tt.

(** The error of a refused database connection. *)
Definition dbDown : Thrown :=
  ErrorObj "Error" "connect ECONNREFUSED 127.0.0.1:5432".

(** A database whose query fails for the write of status [s] only. *)
Definition dbDownAt (s : Status)
  : string -> Status -> option string -> Outcome unit :=
  fun _ st _ => if status_eqb st s then Rejected dbDown else Resolved tt.

(** The engine on the [MockDexRouter] with draws [d]. *)
Definition mockEnv (d : Draws)
    (db : string -> Status -> option string -> Outcome unit) : Env :=
  {| router := mockDex d; updateOrderStatus := db;
     raydiumSettlesFirst := true |}.

Definition dummyOrder : OrderRequest :=
  {| type := "market"; tokenIn := "A"; tokenOut := "B";
     amountIn := 100; slippage := None |}.

(** Routing test: the first source quotes 120, the second 100. *)
Definition routingTestEnv : Env :=
  {| router := stubDex 120 100
       (Resolved {| txHash := "tx-1"; executedPrice := 99.5 |});
     updateOrderStatus := dbUp;
     raydiumSettlesFirst := true |}.

(** Failure test: quotes 100 and 101, [executeSwap] throws
    [new Error('swap failed')]. *)
Definition swapFailed : Thrown := ErrorObj "Error" "swap failed".

Definition failingSwapEnv
    (db : string -> Status -> option string -> Outcome unit) : Env :=
  {| router := stubDex 100 101 (Rejected swapFailed);
     updateOrderStatus := db;
     raydiumSettlesFirst := true |}.

(** Draws for which the first source quotes 98.5 and the second 99.5. *)
Definition lowQuoteDraws : Draws :=
  {| raydiumDraw := 0.125; meteoraDraw := 0.5;
     uuidDraw := "3f0c2a9e-5b7d-4c1a-9e2f-8d6b4a1c0e57"; slipDraw := 0.5 |}.

(** Draws for which the first source quotes 99 and the second 100.75. *)
Definition highQuoteDraws : Draws :=
  {| raydiumDraw := 0.25; meteoraDraw := 0.75;
     uuidDraw := "0b9d7c1e-2a4f-4e6b-8c3d-5f7a9b1d3e20"; slipDraw := 0.5 |}.

(** Two orders executed by [worker.js] in the same millisecond that draw
    the same four bytes. *)
Definition callA : WorkerJs.SwapCall :=
  {| WorkerJs.clock := 1762074000000;
     WorkerJs.random := (x9f, x3a, x0c, x71)%byte;
     WorkerJs.slip := 0.25; WorkerJs.target := Raydium;
     WorkerJs.order :=
       {| type := "market"; tokenIn := "SOL"; tokenOut := "USDC";
          amountIn := 100; slippage := None |} |}.

Definition callB : WorkerJs.SwapCall :=
  {| WorkerJs.clock := 1762074000000;
     WorkerJs.random := (x9f, x3a, x0c, x71)%byte;
     WorkerJs.slip := 0.75; WorkerJs.target := Meteora;
     WorkerJs.order :=
       {| type := "market"; tokenIn := "ETH"; tokenOut := "USDC";
          amountIn := 50; slippage := None |} |}.

(** The body [{type: "market", tokenIn: "SOL", tokenOut: "USDC",
    amountIn: -5}]. *)
Definition negativeAmount : Ingress.JsVal :=
  Ingress.JObj
    [ ("type", Ingress.JStr "market"); ("tokenIn", Ingress.JStr "SOL");
      ("tokenOut", Ingress.JStr "USDC");
      ("amountIn", Ingress.JNum (-5)) ].

(** Collaborators that are up: the store and the queue accept, the
    identifier drawn is fixed. *)
Definition servicesUp : Ingress.Services :=
  {| Ingress.PORT := 3000;
     Ingress.uuidv4 := "7c9e6679-7425-40de-944b-e07fc1f90ae7";
     Ingress.saveOrder := fun _ _ _ => Resolved tt;
     Ingress.addOrder := fun _ _ => Resolved tt |}.

(** ** WebSocket frames ([createWebSocketFrame] of [server.js]) *)

Module WsFrame.

(** A [Buffer]: its bytes. *)
Definition Buffer : Type := list byte.

(** [Buffer.alloc(n)]: [n] zero bytes. *)
Definition alloc (n : nat) : Buffer := repeat x00 n.

(** The byte a number is stored as: its value modulo 256. *)
Definition uint8 (v : N) : byte :=
  match Byte.of_N (v mod 256) with
  | Some b => b
  | None => x00
  end.

(** [buf[i] = b]; an index past the end writes nothing. *)
Fixpoint setAt (buf : Buffer) (i : nat) (b : byte) : Buffer :=
  match buf, i with
  | [], _ => []
  | _ :: rest, O => b :: rest
  | x :: rest, S i' => x :: setAt rest i' b
  end.

(** The [k] low bytes of [v], most significant first, written at
    [offset .. offset + k - 1]. *)
Fixpoint writeBE (k : nat) (v : N) (offset : nat) (buf : Buffer) : Buffer :=
  match k with
  | O => buf
  | S k' => writeBE k' (v / 256) offset (setAt buf (offset + k') (uint8 v))
  end.

(** [buf.writeUInt16BE(v, offset)], for [v] below 65536 and an offset
    inside the buffer (the only way it is called). *)
Definition writeUInt16BE (v : N) (offset : nat) (buf : Buffer) : Buffer :=
  writeBE 2 v offset buf.

(** [buf.writeBigUInt64BE(BigInt(v), offset)], for [v] below 2^64. *)
Definition writeBigUInt64BE (v : N) (offset : nat) (buf : Buffer) : Buffer :=
  writeBE 8 v offset buf.

(** [payload.copy(target, start)] *)
Fixpoint copy (payload target : Buffer) (start : nat) : Buffer :=
  match payload with
  | [] => target
  | b :: rest => copy rest (setAt target start b) (S start)
  end.

Definition createWebSocketFrame (payload : Buffer) : Buffer :=
  let len := N.of_nat (List.length payload) in
  if (len <? 126)%N then
    let frame := alloc (List.length payload + 2) in
    let frame := setAt frame 0 (uint8 129) in
    let frame := setAt frame 1 (uint8 len) in
    copy payload frame 2
  else if (len <? 65536)%N then
    let frame := alloc (List.length payload + 4) in
    let frame := setAt frame 0 (uint8 129) in
    let frame := setAt frame 1 (uint8 126) in
    let frame := writeUInt16BE len 2 frame in
    copy payload frame 4
  else
    let frame := alloc (List.length payload + 10) in
    let frame := setAt frame 0 (uint8 129) in
    let frame := setAt frame 1 (uint8 127) in
    let frame := writeBigUInt64BE len 2 frame in
    copy payload frame 10.

(** The [k] low bytes of [v], most significant first. *)
Fixpoint beBytes (k : nat) (v : N) : list byte :=
  match k with
  | O => []
  | S k' => beBytes k' (v / 256) ++ [uint8 v]
  end.

(** The header of an unmasked text frame for a payload of [len] bytes. *)
Definition header (len : N) : Buffer :=
  if (len <? 126)%N then [x81; uint8 len]
  else if (len <? 65536)%N then x81 :: x7e :: beBytes 2 len
  else x81 :: x7f :: beBytes 8 len.

(** *** Reading a frame, as the receiving side of an unmasked frame does *)

(** The number whose big-endian bytes are [bs]. *)
Definition fromBE (bs : list byte) : N :=
  fold_left (fun acc b => acc * 256 + Byte.to_N b)%N bs 0%N.

(** The payload of a frame: the length is the second byte when below 126,
    the next two bytes after 126, the next eight after 127. *)
Definition readFrame (frame : Buffer) : option Buffer :=
  match frame with
  | _ :: l :: rest =>
      let n := Byte.to_N l in
      if (n <? 126)%N then
        if (N.of_nat (List.length rest) =? n)%N then Some rest else None
      else if (n =? 126)%N then
        let body := skipn 2 rest in
        if (N.of_nat (List.length body) =? fromBE (firstn 2 rest))%N
        then Some body else None
      else if (n =? 127)%N then
        let body := skipn 8 rest in
        if (N.of_nat (List.length body) =? fromBE (firstn 8 rest))%N
        then Some body else None
      else None
  | _ => None
  end.

End WsFrame.

(** ** The status distributor ([wsClients], [defaultEmit] and the websocket
    route) *)

Module Distributor.

(** A websocket connection. *)
Definition Conn : Type := nat.

(** What [socket.send] is handed: the JSON text of an error object or of a
    status payload. *)
Inductive Sent : Type :=
| SentError (message : string)
| SentPayload (p : Payload).

(** [Map<string, sender>]: distinct keys in insertion order; the sender of
    a connection is named by the connection. *)
Definition WsClients : Type := list (string * Conn).

Fixpoint get (k : string) (m : WsClients) : option Conn :=
  match m with
  | [] => None
  | (k', c) :: rest => if (k =? k')%string then Some c else get k rest
  end.

(** [m.set(k, c)]: replaces the value of a key already there. *)
Fixpoint set (k : string) (c : Conn) (m : WsClients) : WsClients :=
  match m with
  | [] => [(k, c)]
  | (k', c') :: rest =>
      if (k =? k')%string then (k', c) :: rest else (k', c') :: set k c rest
  end.

Definition delete (k : string) (m : WsClients) : WsClients :=
  filter (fun kc => negb (k =? fst kc)%string) m.

Record State : Type := {
  wsClients : WsClients;
  onClose : list (Conn * string);   (* 'close' listeners: the id each deletes *)
  sent : list (Conn * Sent);        (* calls of [socket.send], oldest first *)
  closed : list Conn                (* sockets the server closed *)
}.

Definition init : State :=
  {| wsClients := []; onClose := []; sent := []; closed := [] |}.

Definition missingOrderId : string := "orderId is required as query param".

(** The websocket route: [orderId] is [req.query.orderId]; an absent or
    empty one is falsy. *)
Definition connect (c : Conn) (orderId : option string) (st : State)
  : State :=
  match orderId with
  | Some o =>
      if isEmpty o then
        {| wsClients := wsClients st; onClose := onClose st;
           sent := sent st ++ [(c, SentError missingOrderId)];
           closed := closed st ++ [c] |}
      else
        {| wsClients := set o c (wsClients st);
           onClose := onClose st ++ [(c, o)];
           sent := sent st; closed := closed st |}
  | None =>
      {| wsClients := wsClients st; onClose := onClose st;
         sent := sent st ++ [(c, SentError missingOrderId)];
         closed := closed st ++ [c] |}
  end.

(** The 'close' listeners of [c] among [ls], run in the order they were
    added: each deletes the id it was registered with. *)
Definition runListeners (c : Conn) (ls : list (Conn * string))
    (m : WsClients) : WsClients :=
  fold_left (fun m l => if Nat.eqb (fst l) c then delete (snd l) m else m)
            ls m.

(** The socket of [c] closes. *)
Definition socketClosed (c : Conn) (st : State) : State :=
  {| wsClients := runListeners c (onClose st) (wsClients st);
     onClose := filter (fun l => negb (Nat.eqb (fst l) c)) (onClose st);
     sent := sent st; closed := closed st |}.

(** [defaultEmit(orderId, payload)] *)
Definition defaultEmit (orderId : string) (payload : Payload) (st : State)
  : State :=
  match get orderId (wsClients st) with
  | Some c =>
      {| wsClients := wsClients st; onClose := onClose st;
         sent := sent st ++ [(c, SentPayload payload)];
         closed := closed st |}
  | None => st
  end.

(** The events of one run handed to [defaultEmit] one after the other. *)
Definition publish (orderId : string) (events : list Payload) (st : State)
  : State :=
  fold_left (fun s p => defaultEmit orderId p s) events st.

(** What happens around the registry. *)
Inductive Action : Type :=
| Connect (c : Conn) (orderId : option string)
| Closed (c : Conn)
| Emit (orderId : string) (p : Payload).

Definition step (st : State) (a : Action) : State :=
  match a with
  | Connect c o => connect c o st
  | Closed c => socketClosed c st
  | Emit o p => defaultEmit o p st
  end.

Definition run (acts : list Action) (st : State) : State :=
  fold_left step acts st.

End Distributor.

(** What holds of the registry and of the messages sent after the actions
    [hist]: a registered connection subscribed to that order, and a payload
    was sent to a connection only by an emission for an order the connection
    had subscribed to before. *)
Definition delivered_to_subscribers (hist : list Distributor.Action)
    (st : Distributor.State) : Prop :=
  (forall o c, Distributor.get o (Distributor.wsClients st) = Some c ->
     isEmpty o = false /\ In (Distributor.Connect c (Some o)) hist)
  /\ (forall c p, In (c, Distributor.SentPayload p) (Distributor.sent st) ->
        exists pre post o,
          hist = pre ++ Distributor.Emit o p :: post
          /\ isEmpty o = false
          /\ In (Distributor.Connect c (Some o)) pre).

(** ** The submit endpoint of [server.js] *)

(** The 'end' listener of [POST /api/orders/execute], for a body within the
    size limit.  [parsed] is what [JSON.parse(body)] does: it throws or
    returns a value. *)
Module ServerJs.

Inductive Call : Type :=
| PoolInsert (orderId : string)
| RedisSetex (orderId : string)
| RedisSadd (orderId : string)
| QueueAdd (jobId : string) (data : Ingress.JsVal).

Record Services : Type := {
  PORT : N;
  now : N;                                  (* [Date.now()] *)
  randomBytes : WorkerJs.MockDexRouter.Bytes4;   (* [crypto.randomBytes(4)] *)
  poolInsert : string -> Ingress.JsVal -> Outcome unit;
  redisSetex : string -> Outcome unit;
  redisSadd : string -> Outcome unit;
  queueAdd : string -> Ingress.JsVal -> Outcome unit
}.

Definition invalidJson : string := "Invalid JSON".

(** Whether [`${v}`] returns for a parsed value [v].  An object is rendered
    by the [toString] it inherits, unless it has a key [toString] of its
    own: no parsed value is callable, and [valueOf] gives no primitive
    either, so the conversion throws a [TypeError].  An array is joined,
    which converts each of its elements; a primitive always converts. *)
Fixpoint interpolates (v : Ingress.JsVal) : bool :=
  match v with
  | Ingress.JObj fields =>
      negb (existsb (fun kv => (fst kv =? "toString")%string) fields)
  | Ingress.JArr items => forallb interpolates items
  | _ => true
  end.

Definition cannotConvert : Thrown :=
  ErrorObj "TypeError" "Cannot convert object to primitive value".

(** Whether the template literal
    [`   ${data.amountIn} ${data.tokenIn} → ${data.tokenOut}`] returns. *)
Definition loggable (data : Ingress.JsVal) : bool :=
  interpolates (Ingress.get data "amountIn")
  && interpolates (Ingress.get data "tokenIn")
  && interpolates (Ingress.get data "tokenOut").

Section Handler.
Variable sv : Services.
Local Open Scope eng_scope.

(** [`${Date.now()}-${crypto.randomBytes(4).toString('hex')}`] *)
Definition uuidv4 : string :=
  (decimal (now sv) ++ "-"
   ++ WorkerJs.MockDexRouter.toHex
        (WorkerJs.MockDexRouter.bytesOf (randomBytes sv)))%string.

(** [saveOrder] of [lib/db-client.js] *)
Definition saveOrder (orderId : string) (payload : Ingress.JsVal)
  : Eng Call WorkerJs.Ack :=
  tryCatch
    (emit (PoolInsert orderId) ;;
     await (poolInsert sv orderId payload) ;;
     ret {| WorkerJs.success := true; WorkerJs.ackError := None |})
    (fun err =>
       ret {| WorkerJs.success := false;
              WorkerJs.ackError := messageOf err |}).

(** [setActiveOrder] of [lib/active-orders.js] *)
Definition setActiveOrder (orderId : string) : Eng Call WorkerJs.Ack :=
  tryCatch
    (emit (RedisSetex orderId) ;;
     await (redisSetex sv (WorkerJs.ORDER_PREFIX ++ orderId)%string) ;;
     emit (RedisSadd orderId) ;;
     await (redisSadd sv orderId) ;;
     ret {| WorkerJs.success := true; WorkerJs.ackError := None |})
    (fun err =>
       ret {| WorkerJs.success := false;
              WorkerJs.ackError := messageOf err |}).

(** [console.log(`   ${data.amountIn} ${data.tokenIn} → ${data.tokenOut}`)],
    which runs inside the handler's [try]. *)
Definition logOrder (data : Ingress.JsVal) : Eng Call unit :=
  if loggable data then ret tt else throw cannotConvert.

Definition postExecute (parsed : Outcome Ingress.JsVal)
  : Eng Call Ingress.Reply :=
  tryCatch
    (data <- await parsed ;;
     if Ingress.rejects data then ret (Ingress.Reply400 Ingress.invalidOrder)
     else
       let orderId := uuidv4 in
       let wsUrl := ("ws://localhost:" ++ decimal (PORT sv)
                     ++ "/api/orders/execute?orderId=" ++ orderId)%string in
       logOrder data ;;
       discard (saveOrder orderId data) ;;
       discard (setActiveOrder orderId) ;;
       emit (QueueAdd orderId data) ;;
       await (queueAdd sv orderId data) ;;
       ret (Ingress.Reply200 orderId wsUrl))
    (fun _ => ret (Ingress.Reply400 invalidJson)).
End Handler.

(** The calls made to the queue among [calls]. *)
Definition queueCalls (calls : list Call) : list Call :=
  filter (fun c => match c with QueueAdd _ _ => true | _ => false end) calls.

End ServerJs.

(** ** The orders table as [lib/db-client.js] uses it *)

(** The statements of [lib/db-client.js] on a reachable database; the two
    timestamp columns are left out. *)
Module DbClient.

Record Row : Type := {
  id : string;
  payload : string;
  status : string;
  dex_chosen : option string;
  quote_price : option string;
  executed_price : option string;
  tx_hash : option string;
  last_error : option string
}.

(** The table: rows with distinct ids ([id] is the primary key). *)
Definition Table : Type := list Row.

(** The message of the error PostgreSQL raises for an insert that repeats
    a primary key; the name of the constraint stands between double quotes
    (character 34). *)
Definition duplicateKey : string :=
  ("duplicate key value violates unique constraint "
   ++ String (ascii_of_nat 34) "orders_pkey"
   ++ String (ascii_of_nat 34) EmptyString)%string.

(** [SELECT * FROM orders WHERE id = $1], [rows[0] || null] *)
Fixpoint getOrder (orderId : string) (t : Table) : option Row :=
  match t with
  | [] => None
  | r :: rest => if (id r =? orderId)%string then Some r
                 else getOrder orderId rest
  end.

(** [INSERT INTO orders (id, payload, status) VALUES ($1, $2, 'pending')]
    inside [saveOrder], which catches the error of a duplicate id. *)
Definition saveOrder (orderId payload : string) (t : Table)
  : WorkerJs.Ack * Table :=
  match getOrder orderId t with
  | Some _ =>
      ({| WorkerJs.success := false;
          WorkerJs.ackError := Some duplicateKey |}, t)
  | None =>
      ({| WorkerJs.success := true; WorkerJs.ackError := None |},
       t ++ [{| id := orderId; payload := payload; status := "pending";
               dex_chosen := None; quote_price := None;
               executed_price := None; tx_hash := None;
               last_error := None |}])
  end.

(** [UPDATE orders SET status = $1, dex_chosen = $2, quote_price = $3,
    executed_price = $4, tx_hash = $5 WHERE id = $6]; an absent property of
    [details] is sent as NULL. *)
Definition updateOrderStatus (orderId : string) (s : Status)
    (details : WorkerJs.Details) (t : Table) : WorkerJs.Ack * Table :=
  ({| WorkerJs.success := true; WorkerJs.ackError := None |},
   map (fun r =>
          if (id r =? orderId)%string then
            {| id := id r; payload := payload r; status := statusName s;
               dex_chosen := option_map dexName (WorkerJs.d_dex details);
               quote_price := WorkerJs.d_price details;
               executed_price := WorkerJs.d_executedPrice details;
               tx_hash := WorkerJs.d_txHash details;
               last_error := last_error r |}
          else r) t).

(** [UPDATE orders SET status = 'failed', last_error = $2 WHERE id = $3] *)
Definition recordOrderError (orderId : string) (error : option string)
    (t : Table) : Table :=
  map (fun r =>
         if (id r =? orderId)%string then
           {| id := id r; payload := payload r; status := "failed";
              dex_chosen := dex_chosen r; quote_price := quote_price r;
              executed_price := executed_price r; tx_hash := tx_hash r;
              last_error := error |}
         else r) t.

(** The database writes of the [emitStatus] calls of one job, in order. *)
Definition persistEvents (orderId : string) (events : list WorkerJs.Event)
    (t : Table) : Table :=
  fold_left (fun t e => snd (updateOrderStatus orderId (fst e) (snd e) t))
            events t.


End DbClient.

(** ** More inputs for examples *)

(** Redis and PostgreSQL both reachable, no cached entry; and both
    unreachable. *)
Definition backendUp : WorkerJs.Backend :=
  {| WorkerJs.redisGet := fun _ => Resolved None;
     WorkerJs.redisSetex := fun _ => Resolved tt;
     WorkerJs.redisDel := fun _ => Resolved tt;
     WorkerJs.redisSrem := fun _ => Resolved tt;
     WorkerJs.jsonParse := fun _ => Resolved true;
     WorkerJs.poolQuery := fun _ _ => Resolved tt |}.

Definition backendDown : WorkerJs.Backend :=
  {| WorkerJs.redisGet := fun _ => Rejected dbDown;
     WorkerJs.redisSetex := fun _ => Rejected dbDown;
     WorkerJs.redisDel := fun _ => Rejected dbDown;
     WorkerJs.redisSrem := fun _ => Rejected dbDown;
     WorkerJs.jsonParse := fun _ => Rejected dbDown;
     WorkerJs.poolQuery := fun _ _ => Rejected dbDown |}.

(** A queue whose every progress report is accepted, and one whose last
    report fails. *)
Definition progressUp : nat -> Outcome unit := fun _ => Resolved tt.

Definition progressFailsAtEnd : nat -> Outcome unit :=
  fun n => if Nat.eqb n 100 then Rejected dbDown else Resolved tt.

(** [x.toFixed(2)] is not computed here; examples use a fixed rendering. *)
Definition fixedRendering : float -> string := fun _ => "100.00".

(** The services of [server.js] with the stores down, and with them up;
    the queue accepts. *)
Definition serverStoresDown : ServerJs.Services :=
  {| ServerJs.PORT := 3000; ServerJs.now := 1762074000000;
     ServerJs.randomBytes := (x9f, x3a, x0c, x71)%byte;
     ServerJs.poolInsert := fun _ _ => Rejected dbDown;
     ServerJs.redisSetex := fun _ => Rejected dbDown;
     ServerJs.redisSadd := fun _ => Rejected dbDown;
     ServerJs.queueAdd := fun _ _ => Resolved tt |}.

Definition serverStoresUp : ServerJs.Services :=
  {| ServerJs.PORT := 3000; ServerJs.now := 1762074000000;
     ServerJs.randomBytes := (x9f, x3a, x0c, x71)%byte;
     ServerJs.poolInsert := fun _ _ => Resolved tt;
     ServerJs.redisSetex := fun _ => Resolved tt;
     ServerJs.redisSadd := fun _ => Resolved tt;
     ServerJs.queueAdd := fun _ _ => Resolved tt |}.

(** The body [{type: "market", tokenIn: {toString: 1}, tokenOut: "USDC",
    amountIn: 5}]: it passes the guard, and its [tokenIn] cannot be
    converted to a string. *)
Definition unprintableOrder : Ingress.JsVal :=
  Ingress.JObj
    [ ("type", Ingress.JStr "market");
      ("tokenIn", Ingress.JObj [("toString", Ingress.JNum 1)]);
      ("tokenOut", Ingress.JStr "USDC");
      ("amountIn", Ingress.JNum 5) ].

(** A router whose first source is down. *)
Definition raydiumDownEnv : Env :=
  {| router :=
       {| getRaydiumQuote := fun _ _ _ =>
            Rejected (ErrorObj "Error" "raydium unavailable");
          getMeteoraQuote := fun _ _ _ =>
            Resolved {| price := 100; fee := 0.002; dex := Meteora |};
          executeSwap := fun _ _ => Rejected swapFailed |};
     updateOrderStatus := dbUp; raydiumSettlesFirst := true |}.

(** The stubs of the routing test with an execution that settles. *)
Definition settledSwap : SwapResult :=
  {| txHash := "1762074000000-9f3a0c71"; executedPrice := 100 |}.

(** The collaborators of the Fastify endpoint with the store down. *)
Definition storeDown : Ingress.Services :=
  {| Ingress.PORT := 3000;
     Ingress.uuidv4 := "7c9e6679-7425-40de-944b-e07fc1f90ae7";
     Ingress.saveOrder := fun _ _ _ => Rejected dbDown;
     Ingress.addOrder := fun _ _ => Resolved tt |}.

(** ** The request router of [server.js] *)

Module Routes.

(** [s.split(sep)] for a one-character separator. *)
Fixpoint splitOn (sep : ascii) (s : string) : list string :=
  match s with
  | EmptyString => [EmptyString]
  | String c rest =>
      if (c =? sep)%char then EmptyString :: splitOn sep rest
      else match splitOn sep rest with
           | h :: t => String c h :: t
           | [] => [String c EmptyString]
           end
  end.

(** The handler a request is given to. *)
Inductive Route : Type :=
| Preflight                         (* 204 *)
| ListOrders (status : string)
| OrderDetails (orderId : string)
| Stats
| Submit
| NotFound.                         (* 404 'Not Found' *)

(** The chain of [if]s of the request listener.  [pathname] is
    [url.parse(req.url, true).pathname], [statusQuery] the [status] query
    parameter. *)
Definition dispatch (method pathname : string) (statusQuery : option string)
  : Route :=
  if (method =? "OPTIONS")%string then Preflight
  else if (pathname =? "/api/orders")%string && (method =? "GET")%string then
    ListOrders match statusQuery with
               | Some s => if isEmpty s then "pending" else s
               | None => "pending"
               end
  else if prefix "/api/orders/" pathname
          && negb (pathname =? "/api/orders/execute")%string
          && (method =? "GET")%string then
    OrderDetails (nth 3 (splitOn "/" pathname) EmptyString)
  else if (pathname =? "/api/stats")%string && (method =? "GET")%string then
    Stats
  else if (pathname =? "/api/orders/execute")%string
          && (method =? "POST")%string then
    Submit
  else NotFound.

(** The answer of the order-details handler on a reachable database. *)
Inductive Answer : Type :=
| Found (order : DbClient.Row)          (* 200 *)
| OrderNotFound.                        (* 404 'Order not found' *)

Definition orderDetails (t : DbClient.Table) (orderId : string) : Answer :=
  match DbClient.getOrder orderId t with
  | Some order => Found order
  | None => OrderNotFound
  end.

(** No slash among the characters of [s]. *)
Fixpoint slashFree (s : string) : bool :=
  match s with
  | EmptyString => true
  | String c rest => negb (c =? "/")%char && slashFree rest
  end.

End Routes.

(** ** The orders table as the TypeScript db module uses it *)

(** The statements of the db module on a reachable database; the two
    timestamp columns are left out. *)
Module Db.

Record Row : Type := {
  id : string;
  payload : Ingress.JsVal;
  status : string;
  last_error : option string
}.

Definition Table : Type := list Row.

Fixpoint getOrder (orderId : string) (t : Table) : option Row :=
  match t with
  | [] => None
  | r :: rest => if (id r =? orderId)%string then Some r
                 else getOrder orderId rest
  end.

(** [INSERT INTO orders(id, payload, status, created_at) VALUES(..)
    ON CONFLICT (id) DO UPDATE SET payload = $2, status = $3,
    updated_at = NOW()] *)
Fixpoint saveOrder (orderId : string) (p : Ingress.JsVal) (s : string)
    (t : Table) : Table :=
  match t with
  | [] => [{| id := orderId; payload := p; status := s;
              last_error := None |}]
  | r :: rest =>
      if (id r =? orderId)%string then
        {| id := id r; payload := p; status := s;
           last_error := last_error r |} :: rest
      else r :: saveOrder orderId p s rest
  end.

(** [UPDATE orders SET status=$2, updated_at=NOW(), last_error=$3
    WHERE id=$1] with [lastError || null] for [$3]. *)
Definition updateOrderStatus (orderId s : string) (lastError : option string)
    (t : Table) : Table :=
  map (fun r =>
         if (id r =? orderId)%string then
           {| id := id r; payload := payload r; status := s;
              last_error := match lastError with
                            | Some e => if isEmpty e then None else Some e
                            | None => None
                            end |}
         else r) t.

End Db.


(** * Part II: the properties *)

(** ** Running the engine inside a proof *)

Ltac run_engine :=
  cbv beta iota zeta
      delta [processOrder tryCatch bind await emitFn emit ret throw discard
             fst snd app promiseAll2].

(** Evaluate, and split on every promise the run awaits. *)
Ltac settle :=
  run_engine;
  repeat (match goal with
          | |- context [match ?o with Resolved _ => _ | Rejected _ => _ end] =>
              lazymatch o with
              | context [match _ with Resolved _ => _ | Rejected _ => _ end] =>
                  fail
              | _ => destruct o eqn:?
              end
          end; run_engine).

Ltac run_adapter :=
  cbv beta iota zeta
      delta [WorkerJs.emitStatus WorkerJs.updateActiveOrderStatus
             WorkerJs.getActiveOrder WorkerJs.removeActiveOrder
             WorkerJs.updateOrderStatus WorkerJs.recordOrderError
             discard tryCatch bind await emit ret throw fst snd app].

Ltac settle_adapter :=
  run_adapter;
  repeat (match goal with
          | |- context [match ?o with Resolved _ => _ | Rejected _ => _ end] =>
              lazymatch o with
              | context [match _ with Resolved _ => _ | Rejected _ => _ end] =>
                  fail
              | _ => first [ destruct o as [[[]|]|] eqn:?
                           | destruct o as [[]|] eqn:?
                           | destruct o eqn:? ]
              end
          | |- context [if isEmpty ?r then _ else _] => destruct (isEmpty r)
          end; run_adapter).

(** ** The order of JavaScript numbers *)

(** [<=], [<] and [===] on numbers are the IEEE comparisons; the facts below
    follow from their specification on [spec_float]. *)
Module FloatOrder.
Local Open Scope float_scope.

Lemma SFcompare_antisym (x y : spec_float) :
  SFcompare y x = option_map CompOpp (SFcompare x y).
Proof.
  destruct x as [sx|sx| |sx mx ex], y as [sy|sy| |sy my ey]; cbn;
    try reflexivity;
    try (destruct sx; reflexivity); try (destruct sy; reflexivity);
    try (destruct sx, sy; reflexivity).
  destruct sx, sy; try reflexivity; f_equal;
    rewrite (Z.compare_antisym ex ey);
    destruct (ex ?= ey)%Z; cbn; try reflexivity;
    rewrite (Pos.compare_cont_antisym mx my Eq); reflexivity.
Qed.

Lemma SFcompare_None (x y : spec_float) :
  SFcompare x y = None -> x = S754_nan \/ y = S754_nan.
Proof.
  destruct x, y; cbn; intros H; try discriminate; auto.
Qed.

Lemma SFcompare_refl (x : spec_float) :
  x <> S754_nan -> SFcompare x x = Some Eq.
Proof.
  destruct x as [s|s| |s m e]; cbn; intros H;
    try reflexivity; try (destruct s; reflexivity); try congruence.
  rewrite Z.compare_refl, Pos.compare_cont_refl. destruct s; reflexivity.
Qed.

Lemma is_nan_spec (x : float) :
  is_nan x = false -> Prim2SF x <> S754_nan.
Proof.
  unfold is_nan. rewrite FloatAxioms.eqb_spec. unfold SFeqb.
  intros H E. rewrite E in H. discriminate H.
Qed.

Lemma is_nan_false (x : float) :
  Prim2SF x <> S754_nan -> is_nan x = false.
Proof.
  intros H. unfold is_nan. rewrite FloatAxioms.eqb_spec. unfold SFeqb.
  rewrite (SFcompare_refl _ H). reflexivity.
Qed.

Lemma is_nan_true (x : float) :
  Prim2SF x = S754_nan -> is_nan x = true.
Proof.
  intros H. unfold is_nan. rewrite FloatAxioms.eqb_spec. unfold SFeqb.
  rewrite H. reflexivity.
Qed.

Lemma comparable (x y : float) :
  is_nan x = false -> is_nan y = false ->
  exists c, SFcompare (Prim2SF x) (Prim2SF y) = Some c.
Proof.
  intros Hx Hy. destruct (SFcompare (Prim2SF x) (Prim2SF y)) eqn:E.
  - eauto.
  - apply SFcompare_None in E.
    destruct E as [E|E]; [apply is_nan_spec in Hx | apply is_nan_spec in Hy];
      contradiction.
Qed.

(** Numbers that are not NaN are totally ordered. *)
Lemma not_leb_ltb (x y : float) :
  is_nan x = false -> is_nan y = false ->
  (x <=? y) = false -> (y <? x) = true.
Proof.
  intros Hx Hy. rewrite leb_spec, ltb_spec. unfold SFleb, SFltb.
  rewrite (SFcompare_antisym (Prim2SF x) (Prim2SF y)).
  destruct (comparable x y Hx Hy) as [c ->].
  destruct c; cbn; congruence.
Qed.

Lemma leb_refl (x : float) : is_nan x = false -> (x <=? x) = true.
Proof.
  intros Hx. rewrite leb_spec. unfold SFleb.
  rewrite (SFcompare_refl _ (is_nan_spec x Hx)). reflexivity.
Qed.

Lemma ltb_not_leb (x y : float) : (y <? x) = true -> (x <=? y) = false.
Proof.
  rewrite leb_spec, ltb_spec. unfold SFleb, SFltb.
  rewrite (SFcompare_antisym (Prim2SF x) (Prim2SF y)).
  destruct (SFcompare (Prim2SF x) (Prim2SF y)) as [[]|]; cbn; congruence.
Qed.

Lemma ltb_leb (x y : float) : (x <? y) = true -> (x <=? y) = true.
Proof.
  rewrite leb_spec, ltb_spec. unfold SFleb, SFltb.
  destruct (SFcompare (Prim2SF x) (Prim2SF y)) as [[]|]; congruence.
Qed.

Lemma eqb_leb (x y : float) : (x =? y) = true -> (x <=? y) = true.
Proof.
  rewrite leb_spec, FloatAxioms.eqb_spec. unfold SFleb, SFeqb.
  destruct (SFcompare (Prim2SF x) (Prim2SF y)) as [[]|]; congruence.
Qed.

(** A number is truthy exactly when it is below or above zero. *)
Lemma truthy_number (x : float) :
  negb ((x =? 0) || is_nan x) = true <-> (x <? 0) = true \/ (0 <? x) = true.
Proof.
  rewrite FloatAxioms.eqb_spec, !ltb_spec. unfold SFeqb, SFltb.
  rewrite (SFcompare_antisym (Prim2SF x) (Prim2SF 0)).
  destruct (SFcompare (Prim2SF x) (Prim2SF 0)) as [c|] eqn:E.
  - assert (N : is_nan x = false).
    { apply is_nan_false. intros Hn. rewrite Hn in E. discriminate E. }
    rewrite N. destruct c; cbn; intuition discriminate.
  - assert (N : is_nan x = true).
    { apply is_nan_true. apply SFcompare_None in E.
      destruct E as [E|E]; [exact E | discriminate E]. }
    rewrite N. cbn. intuition discriminate.
Qed.
End FloatOrder.

(** ** C1: the order of status events *)

(** X25. Whatever the router and the persistence layer answer, the events
    [processOrder] emits are, in this order, pending, routing, routing
    naming the chosen source, building, submitted, confirmed when the run
    resolves; when it rejects they are the first [k] of these, [k] at least
    one so that pending is never skipped, followed by exactly one failed
    event. *)
Lemma processOrder_status_sequence :
  forall (env : Env) (data : OrderRequest) (orderId : string),
    let run := processOrder env data orderId in
    (exists tx, snd run = Resolved tx /\ map kind (fst run) = lifecycle)
    \/ (exists err k, snd run = Rejected err /\ 1 <= k <= 6 /\
          map kind (fst run) = firstn k lifecycle ++ [(Failed, false)]).
Proof.
  intros env data orderId run. subst run. unfold processOrder.
  settle.
  all: try (left; eexists; split; reflexivity).
  all: right; eexists.
  all: first [ (exists 1; split; [reflexivity | split; [lia | reflexivity]])
             | (exists 2; split; [reflexivity | split; [lia | reflexivity]])
             | (exists 3; split; [reflexivity | split; [lia | reflexivity]])
             | (exists 4; split; [reflexivity | split; [lia | reflexivity]])
             | (exists 5; split; [reflexivity | split; [lia | reflexivity]])
             | (exists 6; split; [reflexivity | split; [lia | reflexivity]]) ].
Qed.

(** C1 (evaluation at the failing input).  Every stage succeeds: both
    quotes arrive and the swap on the chosen source settles.  With every
    persistence write accepted the engine then emits exactly the six
    lifecycle events and resolves with the settlement identifier.  With the
    same router and order, when only the write of 'confirmed' rejects, it
    emits the same six events and then a failed event carrying the reason of
    the write's error, and rejects with that error: no stage failed, and the
    sequence is not the six lifecycle events. *)
Theorem processOrder_sequence_after_lost_write :
  forall (dx : DexRouter) (first : bool)
         (db : string -> Status -> option string -> Outcome unit)
         (data : OrderRequest) (orderId : string)
         (r m : Quote) (ex : SwapResult) (e : Thrown),
    getRaydiumQuote dx (tokenIn data) (tokenOut data) (amountIn data)
      = Resolved r ->
    getMeteoraQuote dx (tokenIn data) (tokenOut data) (amountIn data)
      = Resolved m ->
    executeSwap dx (dex (chooseQuote r m)) data = Resolved ex ->
    db orderId Pending None = Resolved tt ->
    db orderId Routing None = Resolved tt ->
    db orderId Building None = Resolved tt ->
    db orderId Submitted None = Resolved tt ->
    db orderId Confirmed None = Rejected e ->
    db orderId Failed (Some (reasonOf e)) = Resolved tt ->
    let up := processOrder
                {| router := dx; updateOrderStatus := dbUp;
                   raydiumSettlesFirst := first |} data orderId in
    let down := processOrder
                  {| router := dx; updateOrderStatus := db;
                     raydiumSettlesFirst := first |} data orderId in
    up = ([statusOnly Pending; statusOnly Routing;
           routed (chooseQuote r m); statusOnly Building;
           statusOnly Submitted; confirmed ex],
          Resolved (txHash ex))
    /\ map kind (fst up) = lifecycle
    /\ fst down = fst up ++ [failed (reasonOf e)]
    /\ snd down = Rejected e
    /\ map kind (fst down) = lifecycle ++ [(Failed, false)]
    /\ map kind (fst down) <> lifecycle.
Proof.
  intros dx first db data orderId r m ex e Hr Hm Hx
         Hp Hro Hb Hs Hc Hf up down.
  assert (U : up = ([statusOnly Pending; statusOnly Routing;
                     routed (chooseQuote r m); statusOnly Building;
                     statusOnly Submitted; confirmed ex],
                    Resolved (txHash ex))).
  { subst up. unfold processOrder. run_engine.
    cbv beta iota delta [router updateOrderStatus raydiumSettlesFirst dbUp].
    rewrite Hr, Hm. run_engine. rewrite Hx. reflexivity. }
  assert (D : down = (fst up ++ [failed (reasonOf e)], Rejected e)).
  { rewrite U. subst down. unfold processOrder. run_engine.
    cbv beta iota delta [router updateOrderStatus raydiumSettlesFirst].
    rewrite Hp, Hr, Hm. run_engine. rewrite Hro, Hb, Hx. run_engine.
    rewrite Hs, Hc. run_engine. rewrite Hf. reflexivity. }
  rewrite D. rewrite U. cbn [fst snd app map kind status chosen
    statusOnly routed confirmed failed].
  repeat apply conj; try reflexivity. discriminate.
Qed.

Lemma processOrder_sequence_after_lost_write_witness :
  snd (processOrder (mockEnv lowQuoteDraws (dbDownAt Confirmed))
         dummyOrder "order-1")
  = Rejected dbDown.
Proof.
  exact (proj1 (proj2 (proj2 (proj2
    (processOrder_sequence_after_lost_write (mockDex lowQuoteDraws) true
       (dbDownAt Confirmed) dummyOrder "order-1"
       (MockDexRouter.getRaydiumQuote 0.125 "A" "B" 100)
       (MockDexRouter.getMeteoraQuote 0.5 "A" "B" 100)
       (MockDexRouter.executeSwap "3f0c2a9e-5b7d-4c1a-9e2f-8d6b4a1c0e57"
          0.5 Raydium dummyOrder)
       dbDown eq_refl eq_refl eq_refl eq_refl eq_refl eq_refl eq_refl
       eq_refl eq_refl))))).
Defined.

(** ** C2: routing *)

Lemma chooseQuote_cases (r m : Quote) :
  (chooseQuote r m = r /\ otherQuote r m = m) \/
  (chooseQuote r m = m /\ otherQuote r m = r).
Proof.
  unfold chooseQuote, otherQuote.
  destruct (price r <=? price m)%float; auto.
Qed.

(** The third event of a run that got its two quotes is the routing event
    built from the comparator's choice. *)
Lemma processOrder_routing_event (env : Env) (data : OrderRequest)
    (orderId : string) (r m : Quote) :
  updateOrderStatus env orderId Pending None = Resolved tt ->
  getRaydiumQuote (router env) (tokenIn data) (tokenOut data) (amountIn data)
    = Resolved r ->
  getMeteoraQuote (router env) (tokenIn data) (tokenOut data) (amountIn data)
    = Resolved m ->
  nth_error (fst (processOrder env data orderId)) 2
    = Some (routed (chooseQuote r m)).
Proof.
  intros Hdb Hr Hm. unfold processOrder. run_engine.
  rewrite Hdb, Hr, Hm. settle; reflexivity.
Qed.

(** C2. With the two quotes [r] (first source) and [m] (second source) in
    hand, the engine's routing event names the source, and carries the
    price, of the quote the comparator picks.  That quote is the second
    source's when its price is strictly lower and the first source's
    otherwise, so its price is lower than or equal to both prices and on
    equal prices the first source is always picked.  With prices 120 and
    100, in either order, the event names the source that quoted 100. *)
Theorem router_chooses_lower_price :
  forall (env : Env) (data : OrderRequest) (orderId : string) (r m : Quote),
    updateOrderStatus env orderId Pending None = Resolved tt ->
    getRaydiumQuote (router env) (tokenIn data) (tokenOut data) (amountIn data)
      = Resolved r ->
    getMeteoraQuote (router env) (tokenIn data) (tokenOut data) (amountIn data)
      = Resolved m ->
    is_nan (price r) = false ->
    is_nan (price m) = false ->
    let best := chooseQuote r m in
    let event := nth_error (fst (processOrder env data orderId)) 2 in
    option_map status event = Some Routing
    /\ option_map chosen event = Some (Some (dex best))
    /\ option_map quoted event = Some (Some (price best))
    /\ ((price m <? price r)%float = true -> best = m)
    /\ ((price r <? price m)%float = true -> best = r)
    /\ ((price r =? price m)%float = true -> best = r)
    /\ (price best <=? price r)%float = true
    /\ (price best <=? price m)%float = true
    /\ (best = m -> best = r \/ (price m <? price r)%float = true)
    /\ (price r = 120%float -> price m = 100%float -> dex best = dex m)
    /\ (price r = 100%float -> price m = 120%float -> dex best = dex r).
Proof.
  intros env data orderId r m Hdb Hr Hm Nr Nm best event.
  subst event.
  rewrite (processOrder_routing_event env data orderId r m Hdb Hr Hm).
  fold best. cbn [option_map status chosen quoted routed].
  subst best. unfold chooseQuote.
  repeat apply conj; try reflexivity.
  - intros L. rewrite (FloatOrder.ltb_not_leb _ _ L). reflexivity.
  - intros L. rewrite (FloatOrder.ltb_leb _ _ L). reflexivity.
  - intros E. rewrite (FloatOrder.eqb_leb _ _ E). reflexivity.
  - destruct (price r <=? price m)%float eqn:E.
    + apply FloatOrder.leb_refl, Nr.
    + apply FloatOrder.ltb_leb, FloatOrder.not_leb_ltb; assumption.
  - destruct (price r <=? price m)%float eqn:E; [exact E|].
    apply FloatOrder.leb_refl, Nm.
  - destruct (price r <=? price m)%float eqn:E; [auto|].
    intros _. right. apply FloatOrder.not_leb_ltb; assumption.
  - intros E1 E2. rewrite E1, E2. reflexivity.
  - intros E1 E2. rewrite E1, E2. reflexivity.
Qed.

Lemma router_chooses_lower_price_witness :
  option_map chosen
    (nth_error (fst (processOrder routingTestEnv dummyOrder "order-2")) 2)
  = Some (Some Meteora).
Proof.
  exact (proj1 (proj2
    (router_chooses_lower_price routingTestEnv dummyOrder "order-2"
       {| price := 120; fee := 0.003; dex := Raydium |}
       {| price := 100; fee := 0.002; dex := Meteora |}
       eq_refl eq_refl eq_refl eq_refl eq_refl))).
Defined.

(** ** C4, C5, C6: persistence failures in the TypeScript engine *)

Lemma reasonOf_message (n m : string) :
  isEmpty m = false -> reasonOf (ErrorObj n m) = m.
Proof. intros H. unfold reasonOf. cbn. rewrite H. reflexivity. Qed.

Lemma reasonOf_nonempty (n m : string) :
  isEmpty n = false -> isEmpty (reasonOf (ErrorObj n m)) = false.
Proof.
  intros H. unfold reasonOf. cbn.
  destruct (isEmpty m) eqn:Em; [rewrite H; exact H | exact Em].
Qed.

(** Every failed event of a run carries [reasonOf err] for a value [err]
    thrown inside the run's [try] block. *)
Lemma processOrder_failed_reason (env : Env) (data : OrderRequest)
    (orderId : string) (p : Payload) :
  In p (fst (processOrder env data orderId)) -> status p = Failed ->
  exists err, p = failed (reasonOf err).
Proof.
  unfold processOrder. settle; cbn [In]; intros H Hs;
    repeat (destruct H as [H|H];
            [subst p; try discriminate Hs; eauto|]); contradiction.
Qed.


(** C4 (evaluation at the failing input).  Same order, same router draws:
    with every persistence write resolving the engine emits the six
    lifecycle events and resolves; with the write of 'pending' rejecting it
    emits pending, then failed carrying the database error, and rejects with
    that error. *)
Theorem processOrder_persistence_failure_aborts :
  forall (d : Draws) (data : OrderRequest) (orderId : string),
    map status (fst (processOrder (mockEnv d dbUp) data orderId))
      = [Pending; Routing; Routing; Building; Submitted; Confirmed]
    /\ snd (processOrder (mockEnv d dbUp) data orderId)
      = Resolved (uuidDraw d)
    /\ processOrder (mockEnv d (dbDownAt Pending)) data orderId
      = ([statusOnly Pending;
          failed "connect ECONNREFUSED 127.0.0.1:5432"],
         Rejected dbDown).
Proof.
  intros d data orderId. repeat split; reflexivity.
Qed.

(** C5 (evaluation at the failing input).  When only the write of
    'confirmed' rejects, the engine emits confirmed and then failed for the
    same order, and rejects. *)
Theorem processOrder_confirmed_then_failed :
  forall (d : Draws) (data : OrderRequest) (orderId : string),
    map status (fst (processOrder (mockEnv d (dbDownAt Confirmed))
                       data orderId))
      = [Pending; Routing; Routing; Building; Submitted; Confirmed; Failed]
    /\ snd (processOrder (mockEnv d (dbDownAt Confirmed)) data orderId)
      = Rejected dbDown.
Proof.
  intros d data orderId. split; reflexivity.
Qed.

(** C6 (evaluation at the failing inputs).  With execution throwing
    'swap failed' the failed event carries that message; the call rejects
    with the same error when the write of 'failed' resolves, but with the
    database error when that write rejects.  And when only the write of
    'confirmed' rejects, a confirmed event was emitted although the call
    rejects. *)
Theorem processOrder_rejection_differs :
  forall (d : Draws) (data : OrderRequest) (orderId : string),
    processOrder (failingSwapEnv dbUp) data orderId
      = ([statusOnly Pending; statusOnly Routing;
          routed {| price := 100; fee := 0.003; dex := Raydium |};
          statusOnly Building; statusOnly Submitted; failed "swap failed"],
         Rejected swapFailed)
    /\ fst (processOrder (failingSwapEnv (dbDownAt Failed)) data orderId)
       = fst (processOrder (failingSwapEnv dbUp) data orderId)
    /\ snd (processOrder (failingSwapEnv (dbDownAt Failed)) data orderId)
       = Rejected dbDown
    /\ In Confirmed
         (map status (fst (processOrder (mockEnv d (dbDownAt Confirmed))
                             data orderId)))
    /\ snd (processOrder (mockEnv d (dbDownAt Confirmed)) data orderId)
       = Rejected dbDown.
Proof.
  intros d data orderId. repeat split; try reflexivity.
  cbn. tauto.
Qed.

(** *** Sibling paths *)

(** X14. The engine of [standalone-test.ts] runs like the TypeScript
    worker's with a persistence layer that is up: there confirmed and failed are
    final and a rejection carries the failure that caused it. *)
Lemma standalone_processOrder_eq (dx : DexRouter) (first : bool)
    (data : OrderRequest) (orderId : string) :
  StandaloneTest.processOrder dx first data orderId
  = processOrder
      {| router := dx; updateOrderStatus := dbUp;
         raydiumSettlesFirst := first |} data orderId.
Proof.
  unfold StandaloneTest.processOrder, processOrder.
  cbv beta iota delta [router updateOrderStatus raydiumSettlesFirst dbUp].
  settle; reflexivity.
Qed.

(** In [worker.js] the adapters and [emitStatus] never reject, whatever
    Redis and PostgreSQL do. *)
Lemma worker_emitStatus_settles (b : WorkerJs.Backend) (orderId : string)
    (s : Status) (d : WorkerJs.Details) :
  WorkerJs.emitStatus b orderId s d = ([(s, d)], Resolved tt).
Proof. settle_adapter; reflexivity. Qed.

Lemma worker_removeActiveOrder_settles (b : WorkerJs.Backend)
    (orderId : string) :
  discard (WorkerJs.removeActiveOrder b orderId) = ([], Resolved tt).
Proof. settle_adapter; reflexivity. Qed.

Lemma worker_recordOrderError_settles (b : WorkerJs.Backend)
    (orderId : string) (e : option string) :
  WorkerJs.recordOrderError b orderId e = ([], Resolved tt).
Proof. settle_adapter; reflexivity. Qed.

Ltac settle_worker :=
  repeat progress
    (rewrite ?worker_emitStatus_settles, ?worker_removeActiveOrder_settles,
             ?worker_recordOrderError_settles;
     cbv beta iota zeta
         delta [tryCatch bind await emit ret throw fst snd app promiseAll2];
     try match goal with
         | |- context [match ?o with Resolved _ => _ | Rejected _ => _ end] =>
             lazymatch o with
             | context [match _ with Resolved _ => _ | Rejected _ => _ end] =>
                 fail
             | _ => destruct o eqn:?
             end
         end).

(** X10. In [worker.js] the events of a run and the way it settles do not
    depend on what the cache and the database answer. *)
Lemma worker_processOrder_backend_irrelevant
    (b b' : WorkerJs.Backend) (toFixed2 : float -> string)
    (router : DexRouter) (updateProgress : nat -> Outcome unit)
    (first : bool) (data : OrderRequest) (orderId : string) :
  WorkerJs.processOrder b toFixed2 router updateProgress first data orderId
  = WorkerJs.processOrder b' toFixed2 router updateProgress first data orderId.
Proof.
  unfold WorkerJs.processOrder. settle_worker; reflexivity.
Qed.

(** ** C8, C10: prices *)

(** The router copy inside [worker.js] prices like the TypeScript one. *)
Lemma worker_router_same_prices (u : float) (a b : string) (x : float)
    (now : N) (rnd : WorkerJs.MockDexRouter.Bytes4) (uuid : string)
    (t : DexTag) (o : OrderRequest) :
  WorkerJs.MockDexRouter.getRaydiumQuote u a b x
    = MockDexRouter.getRaydiumQuote u a b x
  /\ WorkerJs.MockDexRouter.getMeteoraQuote u a b x
    = MockDexRouter.getMeteoraQuote u a b x
  /\ executedPrice (WorkerJs.MockDexRouter.executeSwap now rnd u t o)
    = executedPrice (MockDexRouter.executeSwap uuid u t o).
Proof. repeat split. Qed.

(** C10. Quotes do not depend on the token pair or the amount, the executed
    price does not depend on the order or on the identifier drawn, and a
    whole run of the engine on the mock router is the same for any two
    orders.  Two runs that choose the same source with the same slippage
    draw realize the same price, whatever their quotes were. *)
Theorem prices_ignore_order :
  forall (u : float) (uuid uuid' : string) (tag : DexTag)
         (tIn tOut tIn' tOut' : string) (amount amount' : float)
         (data data' : OrderRequest) (orderId : string) (d d' : Draws)
         (db : string -> Status -> option string -> Outcome unit),
    MockDexRouter.getRaydiumQuote u tIn tOut amount
      = MockDexRouter.getRaydiumQuote u tIn' tOut' amount'
    /\ MockDexRouter.getMeteoraQuote u tIn tOut amount
      = MockDexRouter.getMeteoraQuote u tIn' tOut' amount'
    /\ executedPrice (MockDexRouter.executeSwap uuid u tag data)
      = executedPrice (MockDexRouter.executeSwap uuid' u tag data')
    /\ processOrder (mockEnv d db) data orderId
      = processOrder (mockEnv d db) data' orderId
    /\ (slipDraw d = slipDraw d' ->
        dex (mockChoice d data) = dex (mockChoice d' data') ->
        realizedPrice (processOrder (mockEnv d dbUp) data orderId)
        = realizedPrice (processOrder (mockEnv d' dbUp) data' orderId)).
Proof.
  intros. repeat split; try reflexivity.
  intros Hs Hc. unfold realizedPrice, processOrder. run_engine.
  cbn [mockEnv mockDex router getRaydiumQuote getMeteoraQuote executeSwap
       updateOrderStatus dbUp raydiumSettlesFirst nth_error realized
       confirmed executedPrice MockDexRouter.executeSwap].
  unfold mockChoice in Hc. rewrite Hs, Hc. reflexivity.
Qed.

Lemma prices_ignore_order_witness :
  realizedPrice (processOrder (mockEnv lowQuoteDraws dbUp) dummyOrder "o-1")
  = realizedPrice (processOrder (mockEnv highQuoteDraws dbUp) dummyOrder "o-1").
Proof.
  exact (proj2 (proj2 (proj2 (proj2
    (prices_ignore_order 0%float "a" "b" Raydium "A" "B" "C" "D"
       1%float 2%float dummyOrder dummyOrder "o-1"
       lowQuoteDraws highQuoteDraws dbUp)))) eq_refl eq_refl).
Defined.

(** C8 (evaluation at the failing input).  With the first source quoting
    98.5 against 99.5 the engine routes to it, and with the slippage draw
    0.5 the realized price is 100: the ratio of the slippage test is above
    0.015, so not below 0.01. *)
Theorem realized_price_off_quote :
  let run := processOrder (mockEnv lowQuoteDraws dbUp) dummyOrder "order-1" in
  snd run = Resolved (uuidDraw lowQuoteDraws)
  /\ option_map chosen (nth_error (fst run) 2) = Some (Some Raydium)
  /\ quotedPrice run = Some 98.5%float
  /\ realizedPrice run = Some 100%float
  /\ (slippageRatio 100 98.5 <? 0.01)%float = false
  /\ (0.015 <? slippageRatio 100 98.5)%float = true.
Proof.
  cbv zeta. repeat split; vm_compute; reflexivity.
Qed.

(** ** C7: settlement identifiers *)

Lemma fromHex_hexOfByte (b : byte) (rest : string) :
  WorkerJs.fromHex (WorkerJs.MockDexRouter.hexOfByte b ++ rest)%string
  = option_map (fun bs => b :: bs) (WorkerJs.fromHex rest).
Proof.
  unfold WorkerJs.MockDexRouter.hexOfByte. cbn [append WorkerJs.fromHex].
  destruct (WorkerJs.fromHex rest) as [bs|]; destruct b; vm_compute;
    reflexivity.
Qed.

(** Hexadecimal rendering can be read back. *)
Lemma fromHex_toHex (bs : list byte) :
  WorkerJs.fromHex (WorkerJs.MockDexRouter.toHex bs) = Some bs.
Proof.
  induction bs as [|b bs IH]; [reflexivity|].
  cbn [WorkerJs.MockDexRouter.toHex]. rewrite fromHex_hexOfByte, IH.
  reflexivity.
Qed.

Lemma toHex_inj (bs bs' : list byte) :
  WorkerJs.MockDexRouter.toHex bs = WorkerJs.MockDexRouter.toHex bs' ->
  bs = bs'.
Proof.
  intros H. apply (f_equal WorkerJs.fromHex) in H.
  rewrite !fromHex_toHex in H. congruence.
Qed.

Lemma bytesOf_inj (r r' : WorkerJs.MockDexRouter.Bytes4) :
  WorkerJs.MockDexRouter.bytesOf r = WorkerJs.MockDexRouter.bytesOf r' ->
  r = r'.
Proof.
  destruct r as [[[a b] c] d], r' as [[[a' b'] c'] d']. cbn.
  congruence.
Qed.

Lemma decimal_inj (n n' : N) : decimal n = decimal n' -> n = n'.
Proof.
  unfold decimal. intros H.
  apply (f_equal NilEmpty.uint_of_string) in H.
  rewrite !NilEmpty.usu in H. injection H as H.
  rewrite <- (DecimalN.Unsigned.of_to n), <- (DecimalN.Unsigned.of_to n').
  rewrite H. reflexivity.
Qed.

Lemma decimal_dashFree (n : N) : WorkerJs.dashFree (decimal n) = true.
Proof.
  unfold decimal. generalize (N.to_uint n) as d.
  induction d; cbn; auto.
Qed.

(** Two dash-free prefixes followed by a dash split a string the same
    way. *)
Lemma split_at_dash (s s' t t' : string) :
  WorkerJs.dashFree s = true -> WorkerJs.dashFree s' = true ->
  (s ++ String "-" t = s' ++ String "-" t')%string -> s = s' /\ t = t'.
Proof.
  revert s'. induction s as [|c s IH]; intros [|c' s'] Hs Hs' E;
    cbn in *.
  - injection E as E. auto.
  - injection E as Ec E. subst c'. discriminate Hs'.
  - injection E as Ec E. subst c. discriminate Hs.
  - injection E as Ec E. subst c'.
    apply andb_true_iff in Hs as [_ Hs]. apply andb_true_iff in Hs' as [_ Hs'].
    destruct (IH s' Hs Hs' E) as [-> ->]. auto.
Qed.

Lemma txHash_inj (c c' : WorkerJs.SwapCall) :
  txHash (WorkerJs.runSwap c) = txHash (WorkerJs.runSwap c') ->
  WorkerJs.seed c = WorkerJs.seed c'.
Proof.
  unfold WorkerJs.runSwap, WorkerJs.seed.
  cbn [WorkerJs.MockDexRouter.executeSwap txHash]. intros E.
  apply split_at_dash in E; try apply decimal_dashFree.
  destruct E as [En Er].
  apply decimal_inj in En. apply toHex_inj, bytesOf_inj in Er.
  rewrite En, Er. reflexivity.
Qed.

Lemma txHash_of_seed (c c' : WorkerJs.SwapCall) :
  WorkerJs.seed c = WorkerJs.seed c' ->
  txHash (WorkerJs.runSwap c) = txHash (WorkerJs.runSwap c').
Proof.
  unfold WorkerJs.seed, WorkerJs.runSwap. intros E. injection E as E1 E2.
  rewrite E1, E2. reflexivity.
Qed.

Lemma lifetime_NoDup (calls : list WorkerJs.SwapCall) :
  NoDup (WorkerJs.lifetime calls) <-> NoDup (map WorkerJs.seed calls).
Proof.
  unfold WorkerJs.lifetime. induction calls as [|c calls IH]; cbn [map].
  - split; constructor.
  - split; intros H; inversion H as [|x l Hin Hnd]; subst; constructor.
    + intros Hs. apply Hin. apply in_map_iff in Hs as [c' [Es Hc']].
      apply in_map_iff. exists c'. split; [|exact Hc'].
      apply txHash_of_seed, Es.
    + apply IH, Hnd.
    + intros Hs. apply Hin. apply in_map_iff in Hs as [c' [Es Hc']].
      apply in_map_iff. exists c'. split; [|exact Hc'].
      apply txHash_inj, Es.
    + apply IH, Hnd.
Qed.

(** C7 (evaluation at the failing input).  Two calls of [executeSwap] of
    [worker.js] in one process lifetime, for different orders and different
    sources, that read the same clock value and draw the same four bytes
    return the same settlement identifier; and so do any two calls that
    agree on the clock reading and on the bytes, whatever their orders,
    sources and slippage draws. *)
Theorem txHash_collision :
  WorkerJs.target callA <> WorkerJs.target callB
  /\ WorkerJs.order callA <> WorkerJs.order callB
  /\ WorkerJs.lifetime [callA; callB]
     = ["1762074000000-9f3a0c71"; "1762074000000-9f3a0c71"]
  /\ ~ NoDup (WorkerJs.lifetime [callA; callB])
  /\ (forall c c' : WorkerJs.SwapCall,
        WorkerJs.clock c = WorkerJs.clock c' ->
        WorkerJs.random c = WorkerJs.random c' ->
        txHash (WorkerJs.runSwap c) = txHash (WorkerJs.runSwap c')).
Proof.
  split; [discriminate|]. split; [discriminate|].
  split; [vm_compute; reflexivity|]. split.
  - rewrite lifetime_NoDup. cbn.
    intros H. inversion H as [|x l Hin _]; subst. apply Hin. left.
    reflexivity.
  - intros c c' Hc Hr. apply txHash_of_seed. unfold WorkerJs.seed.
    rewrite Hc, Hr. reflexivity.
Qed.

(** X26. The identifier [executeSwap] of [worker.js] returns is the decimal
    clock reading, a dash and the hexadecimal rendering of the four random
    bytes, and this rendering loses nothing: two calls return the same
    identifier exactly when they read the same clock value and draw the
    same bytes, so the identifiers of a process lifetime are pairwise
    distinct exactly when these pairs are. *)
Theorem txHash_distinct_iff_seeds_distinct :
  forall (calls : list WorkerJs.SwapCall) (c c' : WorkerJs.SwapCall),
    (NoDup (WorkerJs.lifetime calls) <-> NoDup (map WorkerJs.seed calls))
    /\ (txHash (WorkerJs.runSwap c) = txHash (WorkerJs.runSwap c')
        <-> WorkerJs.seed c = WorkerJs.seed c').
Proof.
  intros calls c c'. split; [apply lifetime_NoDup|].
  split; [apply txHash_inj | apply txHash_of_seed].
Qed.

(** ** C3: validation at the submit endpoint *)

(** A request that passes the guard is an object whose [type] is the string
    "market" and whose three other properties are truthy. *)
Lemma rejects_false_iff (body : Ingress.JsVal) :
  Ingress.rejects body = false <->
  exists fields,
    body = Ingress.JObj fields
    /\ Ingress.lookup "type" fields = Ingress.JStr "market"
    /\ Ingress.truthy (Ingress.lookup "tokenIn" fields) = true
    /\ Ingress.truthy (Ingress.lookup "tokenOut" fields) = true
    /\ Ingress.truthy (Ingress.lookup "amountIn" fields) = true.
Proof.
  unfold Ingress.rejects. split.
  - intros H. repeat (apply orb_false_iff in H as [H ?]).
    destruct body as [| | | | | |fields]; cbn in *; try discriminate.
    exists fields. repeat split; try (apply negb_false_iff; assumption).
    destruct (Ingress.lookup "type" fields) as [| | | |s| |] eqn:E;
      cbn in *; try discriminate.
    apply negb_false_iff, String.eqb_eq in H3. congruence.
  - intros [fields [-> [Ht [Hi [Ho Ha]]]]]. cbn. rewrite Ht, Hi, Ho, Ha.
    reflexivity.
Qed.

(** C3 (counterexample).  A market order for SOL to USDC with amountIn -5
    is not a valid request in the words of the specification, yet the
    handler stores it, enqueues it and answers with its order id. *)
Lemma negative_amount_accepted :
  Ingress.specValid negativeAmount = false
  /\ Ingress.postExecute servicesUp negativeAmount
     = ([ Ingress.SaveOrder "7c9e6679-7425-40de-944b-e07fc1f90ae7"
            negativeAmount "queued";
          Ingress.AddOrder "7c9e6679-7425-40de-944b-e07fc1f90ae7"
            negativeAmount ],
        Resolved
          (Ingress.Reply200 "7c9e6679-7425-40de-944b-e07fc1f90ae7"
             ("ws://localhost:3000/api/orders/execute?orderId="
              ++ "7c9e6679-7425-40de-944b-e07fc1f90ae7")%string)).
Proof.
  split; vm_compute; reflexivity.
Qed.

(** C3 (amended).  The handler lets a request through exactly when the body
    is an object whose [type] is "market" and whose [tokenIn], [tokenOut]
    and [amountIn] are truthy; a numeric [amountIn] is truthy exactly when
    it is below or above zero.  A request that fails the guard is answered
    with status 400 and no collaborator is called; only a request that
    passes is stored or enqueued, the store being called first, and with
    the store and the queue accepting it the reply carries its order id. *)
Theorem postExecute_validation :
  forall (sv : Ingress.Services) (body : Ingress.JsVal) (x : float),
    (Ingress.rejects body = false <->
       exists fields,
         body = Ingress.JObj fields
         /\ Ingress.lookup "type" fields = Ingress.JStr "market"
         /\ Ingress.truthy (Ingress.lookup "tokenIn" fields) = true
         /\ Ingress.truthy (Ingress.lookup "tokenOut" fields) = true
         /\ Ingress.truthy (Ingress.lookup "amountIn" fields) = true)
    /\ (Ingress.truthy (Ingress.JNum x) = true <->
          (x <? 0)%float = true \/ (0 <? x)%float = true)
    /\ (Ingress.rejects body = true <->
          Ingress.postExecute sv body
          = ([], Resolved (Ingress.Reply400 Ingress.invalidOrder)))
    /\ (Ingress.rejects body = false <->
          nth_error (fst (Ingress.postExecute sv body)) 0
          = Some (Ingress.SaveOrder (Ingress.uuidv4 sv) body "queued"))
    /\ (forall id payload,
          In (Ingress.AddOrder id payload) (fst (Ingress.postExecute sv body))
          -> Ingress.rejects body = false)
    /\ (Ingress.rejects body = false ->
        Ingress.saveOrder sv (Ingress.uuidv4 sv) body "queued" = Resolved tt ->
        Ingress.addOrder sv (Ingress.uuidv4 sv) body = Resolved tt ->
        Ingress.postExecute sv body
        = ([ Ingress.SaveOrder (Ingress.uuidv4 sv) body "queued";
             Ingress.AddOrder (Ingress.uuidv4 sv) body ],
           Resolved
             (Ingress.Reply200 (Ingress.uuidv4 sv)
                ("ws://localhost:" ++ decimal (Ingress.PORT sv)
                 ++ "/api/orders/execute?orderId=" ++ Ingress.uuidv4 sv)
                %string))).
Proof.
  intros sv body x.
  split; [apply rejects_false_iff|].
  split; [apply FloatOrder.truthy_number|].
  unfold Ingress.postExecute.
  destruct (Ingress.rejects body) eqn:R; run_engine.
  - repeat apply conj; cbn [nth_error In]; intuition discriminate.
  - destruct (Ingress.saveOrder sv (Ingress.uuidv4 sv) body "queued")
      as [[]|e] eqn:S; run_engine;
      [destruct (Ingress.addOrder sv (Ingress.uuidv4 sv) body)
         as [[]|e] eqn:A; run_engine|];
      repeat apply conj; cbn [nth_error In]; intuition discriminate.
Qed.

(** ** WebSocket frames *)

Lemma uint8_to_N (v : N) : Byte.to_N (WsFrame.uint8 v) = (v mod 256)%N.
Proof.
  unfold WsFrame.uint8.
  destruct (Byte.of_N (v mod 256)) as [b|] eqn:E.
  - apply Byte.to_of_N in E. exact E.
  - pose proof (Byte.to_of_N_option_map (v mod 256)) as H.
    rewrite E in H. cbn in H.
    assert (v mod 256 < 256)%N by (apply N.mod_lt; discriminate).
    destruct (v mod 256 <=? 255)%N eqn:L; [discriminate H|].
    apply N.leb_gt in L. lia.
Qed.

Lemma setAt_length (buf : WsFrame.Buffer) (i : nat) (b : byte) :
  List.length (WsFrame.setAt buf i b) = List.length buf.
Proof.
  revert i. induction buf as [|x buf IH]; intros [|i]; cbn; auto.
Qed.

(** Writing at position [length pre] of [pre ++ x :: post]. *)
Lemma setAt_app (pre post : WsFrame.Buffer) (x b : byte) :
  WsFrame.setAt (pre ++ x :: post) (List.length pre) b = pre ++ b :: post.
Proof.
  induction pre as [|p pre IH]; cbn; [reflexivity|]. rewrite IH. reflexivity.
Qed.

(** Copying a payload into the zeroed room after a header fills it. *)
Lemma copy_after_header (payload hdr : WsFrame.Buffer) :
  WsFrame.copy payload (hdr ++ WsFrame.alloc (List.length payload))
    (List.length hdr)
  = hdr ++ payload.
Proof.
  revert hdr. induction payload as [|b payload IH]; intros hdr.
  - cbn. rewrite app_nil_r. reflexivity.
  - cbn [WsFrame.copy List.length].
    change (WsFrame.alloc (S (List.length payload)))
      with (x00 :: WsFrame.alloc (List.length payload)).
    rewrite setAt_app.
    replace (hdr ++ b :: WsFrame.alloc (List.length payload))
      with ((hdr ++ [b]) ++ WsFrame.alloc (List.length payload))
      by (rewrite <- app_assoc; reflexivity).
    replace (S (List.length hdr)) with (List.length (hdr ++ [b]))
      by (rewrite length_app; cbn; lia).
    rewrite IH. rewrite <- app_assoc. reflexivity.
Qed.

Lemma beBytes_length (k : nat) (v : N) :
  List.length (WsFrame.beBytes k v) = k.
Proof.
  revert v. induction k as [|k IH]; intros v; cbn; [reflexivity|].
  rewrite length_app, IH. cbn. lia.
Qed.

(** [writeBE] overwrites [k] bytes after [pre] with the big-endian bytes of
    [v]. *)
Lemma writeBE_app (k : nat) (v : N) (pre mid post : WsFrame.Buffer) :
  List.length mid = k ->
  WsFrame.writeBE k v (List.length pre) (pre ++ mid ++ post)
  = pre ++ WsFrame.beBytes k v ++ post.
Proof.
  revert v mid post. induction k as [|k IH]; intros v mid post Hm.
  - destruct mid; [reflexivity | discriminate Hm].
  - destruct (exists_last (l := mid)) as [mid' [x ->]];
      [intros ->; discriminate Hm|].
    rewrite length_app in Hm. cbn in Hm.
    assert (Hk : List.length mid' = k) by lia.
    cbn [WsFrame.writeBE WsFrame.beBytes].
    replace (pre ++ (mid' ++ [x]) ++ post)
      with ((pre ++ mid') ++ x :: post)
      by (rewrite <- !app_assoc; reflexivity).
    replace (List.length pre + k) with (List.length (pre ++ mid'))
      by (rewrite length_app; lia).
    rewrite setAt_app.
    replace ((pre ++ mid') ++ WsFrame.uint8 v :: post)
      with (pre ++ mid' ++ (WsFrame.uint8 v :: post))
      by (rewrite <- app_assoc; reflexivity).
    rewrite (IH (v / 256)%N mid' (WsFrame.uint8 v :: post) Hk).
    rewrite <- !app_assoc. reflexivity.
Qed.

Lemma fromBE_snoc (bs : list byte) (b : byte) :
  WsFrame.fromBE (bs ++ [b]) = (WsFrame.fromBE bs * 256 + Byte.to_N b)%N.
Proof. unfold WsFrame.fromBE. rewrite fold_left_app. reflexivity. Qed.

(** Reading big-endian bytes back gives the number modulo [256^k]. *)
Lemma fromBE_beBytes (k : nat) (v : N) :
  WsFrame.fromBE (WsFrame.beBytes k v) = (v mod 256 ^ N.of_nat k)%N.
Proof.
  revert v. induction k as [|k IH]; intros v.
  - cbn. rewrite N.mod_1_r. reflexivity.
  - cbn [WsFrame.beBytes]. rewrite fromBE_snoc, IH, uint8_to_N.
    rewrite Nat2N.inj_succ, N.pow_succ_r'.
    rewrite (N.Div0.mod_mul_r v 256 (256 ^ N.of_nat k)). lia.
Qed.

(** The frame built in a zeroed buffer by indexed writes is the header
    followed by the payload. *)
Lemma frame_is_header_payload (payload : WsFrame.Buffer) :
  WsFrame.createWebSocketFrame payload
  = WsFrame.header (N.of_nat (List.length payload)) ++ payload.
Proof.
  unfold WsFrame.createWebSocketFrame, WsFrame.header.
  set (len := N.of_nat (List.length payload)).
  destruct (len <? 126)%N; [|destruct (len <? 65536)%N].
  - rewrite Nat.add_comm.
    exact (copy_after_header payload [x81; WsFrame.uint8 len]).
  - rewrite Nat.add_comm. unfold WsFrame.writeUInt16BE.
    change (WsFrame.setAt (WsFrame.setAt
              (WsFrame.alloc (4 + List.length payload)) 0
              (WsFrame.uint8 129)) 1 (WsFrame.uint8 126))
      with ([x81; x7e] ++ [x00; x00]
            ++ WsFrame.alloc (List.length payload)).
    rewrite (writeBE_app 2 len [x81; x7e] [x00; x00] _ eq_refl).
    exact (copy_after_header payload (x81 :: x7e :: WsFrame.beBytes 2 len)).
  - rewrite Nat.add_comm. unfold WsFrame.writeBigUInt64BE.
    change (WsFrame.setAt (WsFrame.setAt
              (WsFrame.alloc (10 + List.length payload)) 0
              (WsFrame.uint8 129)) 1 (WsFrame.uint8 127))
      with ([x81; x7f] ++ repeat x00 8
            ++ WsFrame.alloc (List.length payload)).
    rewrite (writeBE_app 8 len [x81; x7f] (repeat x00 8) _ eq_refl).
    pose proof (copy_after_header payload
                  (x81 :: x7f :: WsFrame.beBytes 8 len)) as H.
    cbn [List.length] in H. rewrite beBytes_length in H.
    exact H.
Qed.

(** X1. The frame [createWebSocketFrame] returns starts with the byte 0x81,
    carries the payload unchanged after its header, and is 2 bytes longer
    than a payload below 126 bytes, 4 bytes longer below 65536 bytes and 10
    bytes longer otherwise. *)
Theorem createWebSocketFrame_layout :
  forall payload : WsFrame.Buffer,
    let len := N.of_nat (List.length payload) in
    let frame := WsFrame.createWebSocketFrame payload in
    let h := if (len <? 126)%N then 2 else if (len <? 65536)%N then 4 else 10
    in
    hd x00 frame = x81
    /\ List.length frame = h + List.length payload
    /\ skipn h frame = payload
    /\ (len < 126 -> nth 1 frame x00 = WsFrame.uint8 len)%N
    /\ (126 <= len < 65536 -> nth 1 frame x00 = x7e)%N
    /\ (65536 <= len -> nth 1 frame x00 = x7f)%N.
Proof.
  intros payload len frame h. subst frame.
  rewrite (frame_is_header_payload payload). fold len.
  unfold WsFrame.header. subst h.
  destruct (len <? 126)%N eqn:L1; [|destruct (len <? 65536)%N eqn:L2].
  - apply N.ltb_lt in L1. repeat split; try reflexivity; intros; lia.
  - apply N.ltb_ge in L1. apply N.ltb_lt in L2.
    repeat split; try reflexivity; intros; lia.
  - apply N.ltb_ge in L1. apply N.ltb_ge in L2.
    assert (H8 : List.length (WsFrame.beBytes 8 len) = 8)
      by apply beBytes_length.
    destruct (WsFrame.beBytes 8 len)
      as [|b0 [|b1 [|b2 [|b3 [|b4 [|b5 [|b6 [|b7 [|]]]]]]]]];
      try discriminate H8.
    repeat split; try reflexivity; intros; lia.
Qed.

(** X2. A frame can be read back: for a payload shorter than 2^64 bytes,
    reading the length field and the bytes after the header returns the
    payload. *)
Theorem readFrame_createWebSocketFrame :
  forall payload : WsFrame.Buffer,
    (N.of_nat (List.length payload) < 2 ^ 64)%N ->
    WsFrame.readFrame (WsFrame.createWebSocketFrame payload) = Some payload.
Proof.
  intros payload Hlen.
  rewrite (frame_is_header_payload payload).
  set (len := N.of_nat (List.length payload)) in *.
  unfold WsFrame.header.
  destruct (len <? 126)%N eqn:L1; [|destruct (len <? 65536)%N eqn:L2].
  - apply N.ltb_lt in L1. cbn [app WsFrame.readFrame].
    rewrite uint8_to_N, (N.mod_small len 256) by lia.
    apply N.ltb_lt in L1. rewrite L1. fold len. rewrite N.eqb_refl.
    reflexivity.
  - apply N.ltb_lt in L2.
    assert (H2 : List.length (WsFrame.beBytes 2 len) = 2)
      by apply beBytes_length.
    pose proof (fromBE_beBytes 2 len) as F.
    destruct (WsFrame.beBytes 2 len) as [|b0 [|b1 [|]]];
      try discriminate H2.
    cbn [app WsFrame.readFrame skipn firstn].
    change (Byte.to_N x7e) with 126%N.
    cbn [N.ltb N.eqb N.compare Pos.compare Pos.compare_cont Pos.eqb].
    rewrite F. change (256 ^ N.of_nat 2)%N with 65536%N.
    rewrite (N.mod_small len 65536) by lia. fold len.
    rewrite N.eqb_refl. reflexivity.
  - assert (H8 : List.length (WsFrame.beBytes 8 len) = 8)
      by apply beBytes_length.
    pose proof (fromBE_beBytes 8 len) as F.
    destruct (WsFrame.beBytes 8 len)
      as [|b0 [|b1 [|b2 [|b3 [|b4 [|b5 [|b6 [|b7 [|]]]]]]]]];
      try discriminate H8.
    cbn [app WsFrame.readFrame skipn firstn].
    change (Byte.to_N x7f) with 127%N.
    cbn [N.ltb N.eqb N.compare Pos.compare Pos.compare_cont Pos.eqb].
    rewrite F. change (256 ^ N.of_nat 8)%N with (2 ^ 64)%N.
    rewrite (N.mod_small len (2 ^ 64)) by lia. fold len.
    rewrite N.eqb_refl. reflexivity.
Qed.

Lemma readFrame_createWebSocketFrame_witness :
  WsFrame.readFrame (WsFrame.createWebSocketFrame ["{"; "}"]%byte)
  = Some ["{"; "}"]%byte.
Proof.
  apply (readFrame_createWebSocketFrame ["{"; "}"]%byte). reflexivity.
Defined.

(** ** The status distributor *)

Lemma get_set_same (k : string) (c : Distributor.Conn)
    (m : Distributor.WsClients) :
  Distributor.get k (Distributor.set k c m) = Some c.
Proof.
  induction m as [|[k' c'] m IH]; cbn.
  - rewrite String.eqb_refl. reflexivity.
  - destruct (k =? k')%string eqn:E; cbn; rewrite E; auto.
Qed.

Lemma get_set_inv (k o : string) (c d : Distributor.Conn)
    (m : Distributor.WsClients) :
  Distributor.get o (Distributor.set k c m) = Some d ->
  (o = k /\ d = c) \/ Distributor.get o m = Some d.
Proof.
  induction m as [|[k' c'] m IH]; cbn.
  - destruct (o =? k)%string eqn:E; [|discriminate].
    apply String.eqb_eq in E. intros [= <-]. auto.
  - destruct (k =? k')%string eqn:E; cbn.
    + apply String.eqb_eq in E. subst k'.
      destruct (o =? k)%string eqn:E'; auto.
      apply String.eqb_eq in E'. intros [= <-]. auto.
    + destruct (o =? k')%string; auto.
Qed.

Lemma get_delete_same (k : string) (m : Distributor.WsClients) :
  Distributor.get k (Distributor.delete k m) = None.
Proof.
  unfold Distributor.delete.
  induction m as [|[k' c'] m IH]; cbn; [reflexivity|].
  destruct (k =? k')%string eqn:E; cbn; [exact IH|]. rewrite E. exact IH.
Qed.

Lemma get_delete_inv (k o : string) (d : Distributor.Conn)
    (m : Distributor.WsClients) :
  Distributor.get o (Distributor.delete k m) = Some d ->
  Distributor.get o m = Some d.
Proof.
  unfold Distributor.delete.
  induction m as [|[k' c'] m IH]; cbn; [auto|].
  destruct (k =? k')%string eqn:E; cbn.
  - apply String.eqb_eq in E. subst k'. intros H.
    destruct (o =? k)%string eqn:E'; [|auto].
    apply String.eqb_eq in E'. subst o.
    pose proof (get_delete_same k m) as N. unfold Distributor.delete in N.
    congruence.
  - destruct (o =? k')%string; auto.
Qed.

Lemma get_delete_none (k o : string) (m : Distributor.WsClients) :
  Distributor.get o m = None ->
  Distributor.get o (Distributor.delete k m) = None.
Proof.
  intros H. destruct (Distributor.get o (Distributor.delete k m)) eqn:E;
    [|reflexivity].
  apply get_delete_inv in E. congruence.
Qed.

(** Running the 'close' listeners only removes registrations. *)
Lemma listeners_inv (c : Distributor.Conn)
    (ls : list (Distributor.Conn * string))
    (m : Distributor.WsClients) (o : string) (d : Distributor.Conn) :
  Distributor.get o
    (Distributor.runListeners c ls m)
    = Some d ->
  Distributor.get o m = Some d.
Proof.
  unfold Distributor.runListeners.
  revert m. induction ls as [|[c' k] ls IH]; intros m; cbn; [auto|].
  intros H. apply IH in H. destruct (Nat.eqb c' c); [|exact H].
  apply get_delete_inv in H. exact H.
Qed.

Lemma listeners_none (c : Distributor.Conn)
    (ls : list (Distributor.Conn * string))
    (m : Distributor.WsClients) (o : string) :
  Distributor.get o m = None ->
  Distributor.get o
    (Distributor.runListeners c ls m)
    = None.
Proof.
  intros H.
  destruct (Distributor.get o (Distributor.runListeners c ls m)) eqn:E;
    [|reflexivity].
  apply listeners_inv in E. congruence.
Qed.

(** A listener of [c] for [o] leaves nobody registered for [o]. *)
Lemma listeners_delete (c : Distributor.Conn)
    (ls : list (Distributor.Conn * string))
    (m : Distributor.WsClients) (o : string) :
  In (c, o) ls ->
  Distributor.get o
    (Distributor.runListeners c ls m)
    = None.
Proof.
  revert m. induction ls as [|[c' k] ls IH]; intros m; [cbn; tauto|].
  intros [E|Hin].
  - injection E as -> ->. unfold Distributor.runListeners. cbn.
    rewrite Nat.eqb_refl.
    apply (listeners_none c ls _ o), get_delete_same.
  - unfold Distributor.runListeners. cbn. apply IH, Hin.
Qed.

Lemma publish_registered (o : string) (c : Distributor.Conn)
    (events : list Payload) (st : Distributor.State) :
  Distributor.get o (Distributor.wsClients st) = Some c ->
  Distributor.publish o events st
  = {| Distributor.wsClients := Distributor.wsClients st;
       Distributor.onClose := Distributor.onClose st;
       Distributor.sent :=
         Distributor.sent st
         ++ map (fun p => (c, Distributor.SentPayload p)) events;
       Distributor.closed := Distributor.closed st |}.
Proof.
  unfold Distributor.publish. revert st.
  induction events as [|p events IH]; intros st H; cbn [fold_left map].
  - rewrite app_nil_r. destruct st; reflexivity.
  - unfold Distributor.defaultEmit at 2. rewrite H. rewrite IH by exact H.
    cbn. rewrite <- app_assoc. reflexivity.
Qed.

Lemma publish_unregistered (o : string) (events : list Payload)
    (st : Distributor.State) :
  Distributor.get o (Distributor.wsClients st) = None ->
  Distributor.publish o events st = st.
Proof.
  unfold Distributor.publish. intros H.
  induction events as [|p events IH]; cbn [fold_left]; [reflexivity|].
  unfold Distributor.defaultEmit at 2. rewrite H. exact IH.
Qed.

(** X3. A subscriber registered for an order while the engine runs is sent
    every event of the run, in emission order, and nothing else is sent to
    anybody; the registry is left as it was. *)
Theorem subscriber_receives_run :
  forall (env : Env) (data : OrderRequest) (orderId : string)
         (c : Distributor.Conn) (st : Distributor.State),
    Distributor.get orderId (Distributor.wsClients st) = Some c ->
    let events := fst (processOrder env data orderId) in
    let st' := Distributor.publish orderId events st in
    Distributor.sent st'
    = Distributor.sent st
      ++ map (fun p => (c, Distributor.SentPayload p)) events
    /\ Distributor.wsClients st' = Distributor.wsClients st
    /\ Distributor.closed st' = Distributor.closed st.
Proof.
  intros env data orderId c st H events st'. subst st'.
  rewrite (publish_registered orderId c events st H). cbn. auto.
Qed.

Lemma subscriber_receives_run_witness :
  Distributor.sent
    (Distributor.publish "order-2"
       (fst (processOrder routingTestEnv dummyOrder "order-2"))
       (Distributor.connect 7 (Some "order-2") Distributor.init))
  = map (fun p => (7, Distributor.SentPayload p))
        (fst (processOrder routingTestEnv dummyOrder "order-2")).
Proof.
  exact (proj1 (subscriber_receives_run routingTestEnv dummyOrder "order-2" 7
                  (Distributor.connect 7 (Some "order-2") Distributor.init)
                  eq_refl)).
Defined.

(** X4. Events are not kept for late subscribers: with nobody registered
    for the order, the events emitted before a connection subscribes are
    sent to no one, and the connection is sent exactly the events emitted
    after it subscribed. *)
Theorem late_subscriber_misses_earlier_events :
  forall (orderId : string) (c : Distributor.Conn)
         (before after : list Payload) (st : Distributor.State),
    Distributor.get orderId (Distributor.wsClients st) = None ->
    isEmpty orderId = false ->
    Distributor.sent
      (Distributor.publish orderId after
         (Distributor.connect c (Some orderId)
            (Distributor.publish orderId before st)))
    = Distributor.sent st
      ++ map (fun p => (c, Distributor.SentPayload p)) after.
Proof.
  intros orderId c before after st Hnone Hne.
  rewrite (publish_unregistered orderId before st Hnone).
  rewrite (publish_registered orderId c after).
  - unfold Distributor.connect. rewrite Hne. reflexivity.
  - unfold Distributor.connect. rewrite Hne. cbn. apply get_set_same.
Qed.

Lemma late_subscriber_misses_earlier_events_witness :
  Distributor.sent
    (Distributor.publish "order-1" [statusOnly Building; statusOnly Submitted]
       (Distributor.connect 3 (Some "order-1")
          (Distributor.publish "order-1"
             [statusOnly Pending; statusOnly Routing] Distributor.init)))
  = [(3, Distributor.SentPayload (statusOnly Building));
     (3, Distributor.SentPayload (statusOnly Submitted))].
Proof.
  exact (late_subscriber_misses_earlier_events "order-1" 3
           [statusOnly Pending; statusOnly Routing]
           [statusOnly Building; statusOnly Submitted]
           Distributor.init eq_refl eq_refl).
Defined.

(** X5. The last subscriber of an order wins, and the close of a displaced
    connection unregisters its successor: after [a] and then [b] subscribe
    to the same order, events go to [b]; once the socket of [a] closes,
    nobody is registered for the order and its events are dropped although
    [b] is still connected. *)
Theorem stale_close_unregisters_successor :
  forall (orderId : string) (a b : Distributor.Conn) (p : Payload)
         (st : Distributor.State),
    isEmpty orderId = false ->
    let st2 := Distributor.connect b (Some orderId)
                 (Distributor.connect a (Some orderId) st) in
    let st3 := Distributor.socketClosed a st2 in
    Distributor.sent (Distributor.defaultEmit orderId p st2)
      = Distributor.sent st ++ [(b, Distributor.SentPayload p)]
    /\ Distributor.get orderId (Distributor.wsClients st3) = None
    /\ Distributor.defaultEmit orderId p st3 = st3.
Proof.
  intros orderId a b p st Hne st2 st3. subst st3 st2.
  unfold Distributor.connect. rewrite Hne.
  unfold Distributor.socketClosed, Distributor.defaultEmit.
  cbn [Distributor.wsClients Distributor.onClose Distributor.sent
       Distributor.closed].
  assert (N : Distributor.get orderId
                (Distributor.runListeners a
                   ((Distributor.onClose st ++ [(a, orderId)])
                    ++ [(b, orderId)])
                   (Distributor.set orderId b
                      (Distributor.set orderId a (Distributor.wsClients st))))
              = None).
  { apply listeners_delete. apply in_or_app. left. apply in_or_app. right.
    left. reflexivity. }
  split; [|split].
  - rewrite get_set_same. reflexivity.
  - exact N.
  - rewrite N. reflexivity.
Qed.

Lemma stale_close_unregisters_successor_witness :
  Distributor.get "order-1"
    (Distributor.wsClients
       (Distributor.socketClosed 1
          (Distributor.connect 2 (Some "order-1")
             (Distributor.connect 1 (Some "order-1") Distributor.init))))
  = None.
Proof.
  exact (proj1 (proj2
    (stale_close_unregisters_successor "order-1" 1 2 (statusOnly Pending)
       Distributor.init eq_refl))).
Defined.

Lemma delivered_step (hist : list Distributor.Action)
    (st : Distributor.State) (a : Distributor.Action) :
  delivered_to_subscribers hist st ->
  delivered_to_subscribers (hist ++ [a]) (Distributor.step st a).
Proof.
  intros [R S].
  assert (S' : forall c p,
             In (c, Distributor.SentPayload p) (Distributor.sent st) ->
             exists pre post o,
               hist ++ [a] = pre ++ Distributor.Emit o p :: post
               /\ isEmpty o = false
               /\ In (Distributor.Connect c (Some o)) pre).
  { intros c p H. destruct (S c p H) as [pre [post [o [E [Ho Hc]]]]].
    exists pre, (post ++ [a]), o. split; [|auto].
    rewrite E, <- app_assoc. reflexivity. }
  assert (R' : forall o c,
             Distributor.get o (Distributor.wsClients st) = Some c ->
             isEmpty o = false
             /\ In (Distributor.Connect c (Some o)) (hist ++ [a])).
  { intros o c H. destruct (R o c H). split; [assumption|].
    apply in_or_app. auto. }
  destruct a as [c' [o'|]|c'|o' p']; cbn [Distributor.step].
  - unfold Distributor.connect. destruct (isEmpty o') eqn:Eo; split; cbn.
    + exact R'.
    + intros c p H. apply in_app_or in H as [H|[H|[]]]; [auto|discriminate H].
    + intros o c H. apply get_set_inv in H as [[-> ->]|H]; [|auto].
      split; [exact Eo|]. apply in_or_app. right. left. reflexivity.
    + exact S'.
  - unfold Distributor.connect. split; cbn; [exact R'|].
    intros c p H. apply in_app_or in H as [H|[H|[]]]; [auto|discriminate H].
  - unfold Distributor.socketClosed. split; cbn; [|exact S'].
    intros o c H. apply listeners_inv in H. auto.
  - unfold Distributor.defaultEmit.
    destruct (Distributor.get o' (Distributor.wsClients st)) as [d|] eqn:G.
    + split; cbn; [exact R'|].
      intros c p H. apply in_app_or in H as [H|[H|[]]]; [auto|].
      injection H as H1 H2. subst c p. destruct (R o' d G) as [Ho Hd].
      exists hist, [], o'. auto.
    + split; [exact R' | exact S'].
Qed.

Lemma delivered_run (acts : list Distributor.Action) :
  delivered_to_subscribers acts (Distributor.run acts Distributor.init).
Proof.
  induction acts as [|a acts IH] using rev_ind.
  - split; cbn; [discriminate | tauto].
  - unfold Distributor.run in *. rewrite fold_left_app. cbn [fold_left].
    apply delivered_step, IH.
Qed.

(** X6. Whatever connections open and close and whatever is emitted, a
    status payload is sent to a connection only when it was emitted for an
    order that this connection had subscribed to earlier, with a non-empty
    order id: no event reaches a connection that never subscribed to its
    order. *)
Theorem payloads_reach_subscribers_only :
  forall (acts : list Distributor.Action) (c : Distributor.Conn)
         (p : Payload),
    In (c, Distributor.SentPayload p)
       (Distributor.sent (Distributor.run acts Distributor.init)) ->
    exists pre post orderId,
      acts = pre ++ Distributor.Emit orderId p :: post
      /\ isEmpty orderId = false
      /\ In (Distributor.Connect c (Some orderId)) pre.
Proof.
  intros acts c p H. exact (proj2 (delivered_run acts) c p H).
Qed.

Lemma payloads_reach_subscribers_only_witness :
  exists pre post orderId,
    [Distributor.Connect 5 None; Distributor.Connect 6 (Some "o-9");
     Distributor.Emit "o-9" (statusOnly Pending)]
    = pre ++ Distributor.Emit orderId (statusOnly Pending) :: post
    /\ isEmpty orderId = false
    /\ In (Distributor.Connect 6 (Some orderId)) pre.
Proof.
  apply (payloads_reach_subscribers_only
           [Distributor.Connect 5 None; Distributor.Connect 6 (Some "o-9");
            Distributor.Emit "o-9" (statusOnly Pending)]
           6 (statusOnly Pending)).
  vm_compute. right. left. reflexivity.
Defined.

(** ** More on the two engines *)

(** X7. In [worker.js] a job that resolves has logged pending, routing,
    building, submitted and confirmed, in this order; one that rejects has
    logged the first [k] of them ([k] at least one) and then failed, the
    failed entry carries the message of the error the job rejects with, and
    that is the error thrown inside the [try] block. *)
Theorem worker_status_sequence :
  forall (b : WorkerJs.Backend) (toFixed2 : float -> string)
         (dx : DexRouter) (updateProgress : nat -> Outcome unit)
         (first : bool) (data : OrderRequest) (orderId : string),
    let run := WorkerJs.processOrder b toFixed2 dx updateProgress first
                 data orderId in
    let steps := [Pending; Routing; Building; Submitted; Confirmed] in
    (exists tx, snd run = Resolved tx /\ map fst (fst run) = steps)
    \/ (exists err k,
          snd run = Rejected err /\ 1 <= k <= 5
          /\ map fst (fst run) = firstn k steps ++ [Failed]
          /\ option_map (fun e => WorkerJs.d_error (snd e))
               (nth_error (fst run) k) = Some (messageOf err)).
Proof.
  intros b toFixed2 dx updateProgress first data orderId run steps.
  subst run steps. unfold WorkerJs.processOrder. settle_worker.
  all: try (left; eexists; split; reflexivity).
  all: right; eexists.
  all: first
    [ (exists 1; split; [reflexivity | split; [lia | split; reflexivity]])
    | (exists 2; split; [reflexivity | split; [lia | split; reflexivity]])
    | (exists 3; split; [reflexivity | split; [lia | split; reflexivity]])
    | (exists 4; split; [reflexivity | split; [lia | split; reflexivity]])
    | (exists 5; split; [reflexivity | split; [lia | split; reflexivity]]) ].
Qed.

(** X8. The two engines order submission and execution differently: when
    the quotes arrive and [executeSwap] rejects, the TypeScript engine has
    already emitted submitted before it emits failed, while [worker.js],
    which reports submitted only after the swap returned, goes from building
    straight to failed; both reject with the swap's error. *)
Theorem submitted_before_or_after_execution :
  forall (b : WorkerJs.Backend) (toFixed2 : float -> string)
         (dx : DexRouter) (updateProgress : nat -> Outcome unit)
         (first : bool) (data : OrderRequest) (orderId : string)
         (r m : Quote) (err : Thrown),
    (forall n, updateProgress n = Resolved tt) ->
    getRaydiumQuote dx (tokenIn data) (tokenOut data) (amountIn data)
      = Resolved r ->
    getMeteoraQuote dx (tokenIn data) (tokenOut data) (amountIn data)
      = Resolved m ->
    executeSwap dx (dex (chooseQuote r m)) data = Rejected err ->
    let worker := WorkerJs.processOrder b toFixed2 dx updateProgress first
                    data orderId in
    let engine := processOrder
                    {| router := dx; updateOrderStatus := dbUp;
                       raydiumSettlesFirst := first |} data orderId in
    map fst (fst worker) = [Pending; Routing; Building; Failed]
    /\ snd worker = Rejected err
    /\ map status (fst engine)
       = [Pending; Routing; Routing; Building; Submitted; Failed]
    /\ snd engine = Rejected err.
Proof.
  intros b toFixed2 dx updateProgress first data orderId r m err
         Hp Hr Hm Hx worker engine.
  subst worker engine. split; [|split].
  - unfold WorkerJs.processOrder.
    rewrite ?worker_emitStatus_settles. cbv beta iota zeta
      delta [tryCatch bind await emit ret throw fst snd app promiseAll2].
    rewrite !Hp, Hr, Hm.
    rewrite ?worker_emitStatus_settles. cbv beta iota zeta
      delta [tryCatch bind await emit ret throw fst snd app promiseAll2].
    rewrite Hx. settle_worker. reflexivity.
  - unfold WorkerJs.processOrder.
    rewrite ?worker_emitStatus_settles. cbv beta iota zeta
      delta [tryCatch bind await emit ret throw fst snd app promiseAll2].
    rewrite !Hp, Hr, Hm.
    rewrite ?worker_emitStatus_settles. cbv beta iota zeta
      delta [tryCatch bind await emit ret throw fst snd app promiseAll2].
    rewrite Hx. settle_worker. reflexivity.
  - unfold processOrder. run_engine.
    cbv beta iota delta [router updateOrderStatus raydiumSettlesFirst dbUp].
    rewrite Hr, Hm. run_engine. rewrite Hx. split; reflexivity.
Qed.

Lemma submitted_before_or_after_execution_witness :
  map fst (fst (WorkerJs.processOrder backendDown fixedRendering
                  (stubDex 100 101 (Rejected swapFailed)) progressUp true
                  dummyOrder "order-3"))
  = [Pending; Routing; Building; Failed].
Proof.
  exact (proj1
    (submitted_before_or_after_execution backendDown fixedRendering
       (stubDex 100 101 (Rejected swapFailed)) progressUp true
       dummyOrder "order-3"
       {| price := 100; fee := 0.003; dex := Raydium |}
       {| price := 101; fee := 0.002; dex := Meteora |} swapFailed
       (fun _ => eq_refl) eq_refl eq_refl eq_refl)).
Defined.

(** X9. In [worker.js] a failing progress report after confirmation turns a
    confirmed order into a failed job: when everything succeeds and only
    [job.updateProgress(100)] rejects, the job has logged confirmed and then
    failed, and rejects with the progress error. *)
Theorem worker_progress_failure_after_confirmed :
  forall (b : WorkerJs.Backend) (toFixed2 : float -> string)
         (dx : DexRouter) (updateProgress : nat -> Outcome unit)
         (first : bool) (data : OrderRequest) (orderId : string)
         (r m : Quote) (ex : SwapResult) (err : Thrown),
    updateProgress 20 = Resolved tt -> updateProgress 40 = Resolved tt ->
    updateProgress 60 = Resolved tt -> updateProgress 80 = Resolved tt ->
    updateProgress 100 = Rejected err ->
    getRaydiumQuote dx (tokenIn data) (tokenOut data) (amountIn data)
      = Resolved r ->
    getMeteoraQuote dx (tokenIn data) (tokenOut data) (amountIn data)
      = Resolved m ->
    executeSwap dx (dex (chooseQuote r m)) data = Resolved ex ->
    let run := WorkerJs.processOrder b toFixed2 dx updateProgress first
                 data orderId in
    map fst (fst run)
      = [Pending; Routing; Building; Submitted; Confirmed; Failed]
    /\ snd run = Rejected err
    /\ option_map (fun e => WorkerJs.d_txHash (snd e)) (nth_error (fst run) 4)
       = Some (Some (txHash ex)).
Proof.
  intros b toFixed2 dx updateProgress first data orderId r m ex err
         H20 H40 H60 H80 H100 Hr Hm Hx run.
  subst run. unfold WorkerJs.processOrder.
  rewrite ?worker_emitStatus_settles. cbv beta iota zeta
    delta [tryCatch bind await emit ret throw fst snd app promiseAll2].
  rewrite H20, Hr, Hm.
  rewrite ?worker_emitStatus_settles. cbv beta iota zeta
    delta [tryCatch bind await emit ret throw fst snd app promiseAll2].
  rewrite H40, H60, Hx.
  rewrite ?worker_emitStatus_settles, ?worker_removeActiveOrder_settles.
  cbv beta iota zeta
    delta [tryCatch bind await emit ret throw fst snd app promiseAll2].
  rewrite H80.
  rewrite ?worker_emitStatus_settles, ?worker_removeActiveOrder_settles.
  cbv beta iota zeta
    delta [tryCatch bind await emit ret throw fst snd app promiseAll2].
  rewrite H100. settle_worker. repeat split.
Qed.

Lemma worker_progress_failure_after_confirmed_witness :
  snd (WorkerJs.processOrder backendUp fixedRendering
         (stubDex 100 101 (Resolved settledSwap)) progressFailsAtEnd
         true dummyOrder "order-4")
  = Rejected dbDown.
Proof.
  exact (proj1 (proj2
    (worker_progress_failure_after_confirmed backendUp fixedRendering
       (stubDex 100 101 (Resolved settledSwap)) progressFailsAtEnd
       true dummyOrder "order-4"
       {| price := 100; fee := 0.003; dex := Raydium |}
       {| price := 101; fee := 0.002; dex := Meteora |}
       settledSwap dbDown
       eq_refl eq_refl eq_refl eq_refl eq_refl eq_refl eq_refl eq_refl))).
Defined.

(** X12. In the TypeScript engine failed is final: an event with status
    failed is the last event of its run, and a run that emitted one
    rejects. *)
Theorem failed_is_final :
  forall (env : Env) (data : OrderRequest) (orderId : string) (i : nat),
    nth_error (map status (fst (processOrder env data orderId))) i
      = Some Failed ->
    S i = List.length (fst (processOrder env data orderId))
    /\ exists err, snd (processOrder env data orderId) = Rejected err.
Proof.
  intros env data orderId i. unfold processOrder. settle.
  all: cbn [map status statusOnly routed confirmed failed List.length].
  all: intros H.
  all: repeat (destruct i as [|i]; cbn [nth_error] in H; try discriminate H).
  all: split; [reflexivity | eexists; reflexivity].
Qed.

Lemma failed_is_final_witness :
  6 = List.length (fst (processOrder (failingSwapEnv dbUp) dummyOrder "o-3")).
Proof.
  exact (proj1 (failed_is_final (failingSwapEnv dbUp) dummyOrder "o-3" 5
                  eq_refl)).
Defined.

(** X13. A run of the TypeScript engine that resolves got both quotes,
    executed the swap on the source the comparator chose, emitted the six
    lifecycle events carrying that choice and that execution, and returns
    the settlement identifier of its confirmed event. *)
Theorem resolved_run_reports_its_execution :
  forall (env : Env) (data : OrderRequest) (orderId tx : string),
    snd (processOrder env data orderId) = Resolved tx ->
    exists r m ex,
      getRaydiumQuote (router env) (tokenIn data) (tokenOut data)
        (amountIn data) = Resolved r
      /\ getMeteoraQuote (router env) (tokenIn data) (tokenOut data)
           (amountIn data) = Resolved m
      /\ executeSwap (router env) (dex (chooseQuote r m)) data = Resolved ex
      /\ tx = txHash ex
      /\ fst (processOrder env data orderId)
         = [statusOnly Pending; statusOnly Routing;
            routed (chooseQuote r m); statusOnly Building;
            statusOnly Submitted; confirmed ex].
Proof.
  intros env data orderId tx. unfold processOrder. settle.
  all: intros H; try discriminate H.
  injection H as <-. do 3 eexists. repeat split; eassumption.
Qed.

Lemma resolved_run_reports_its_execution_witness :
  exists r m ex,
    getRaydiumQuote (router routingTestEnv) "A" "B" 100%float = Resolved r
    /\ getMeteoraQuote (router routingTestEnv) "A" "B" 100%float = Resolved m
    /\ executeSwap (router routingTestEnv) (dex (chooseQuote r m)) dummyOrder
       = Resolved ex
    /\ "tx-1" = txHash ex
    /\ fst (processOrder routingTestEnv dummyOrder "order-2")
       = [statusOnly Pending; statusOnly Routing;
          routed (chooseQuote r m); statusOnly Building;
          statusOnly Submitted; confirmed ex].
Proof.
  exact (resolved_run_reports_its_execution routingTestEnv dummyOrder
           "order-2" "tx-1" eq_refl).
Defined.

(** X15. A failing quote fails routing: with the pending write accepted,
    when a quote call rejects the engine emits pending, routing and failed
    only; the failed event carries the reason of the rejection that settled
    first, and the run rejects with that rejection when the failed write is
    accepted. *)
Theorem quote_failure_fails_routing :
  forall (env : Env) (data : OrderRequest) (orderId : string),
    updateOrderStatus env orderId Pending None = Resolved tt ->
    let rq := getRaydiumQuote (router env) (tokenIn data) (tokenOut data)
                (amountIn data) in
    let mq := getMeteoraQuote (router env) (tokenIn data) (tokenOut data)
                (amountIn data) in
    forall err,
      promiseAll2 (raydiumSettlesFirst env) rq mq = Rejected err ->
      fst (processOrder env data orderId)
        = [statusOnly Pending; statusOnly Routing; failed (reasonOf err)]
      /\ (exists e, snd (processOrder env data orderId) = Rejected e)
      /\ (updateOrderStatus env orderId Failed (Some (reasonOf err))
            = Resolved tt ->
          snd (processOrder env data orderId) = Rejected err).
Proof.
  intros env data orderId Hdb rq mq err Hall.
  subst rq mq. unfold processOrder.
  cbv beta iota zeta
      delta [tryCatch bind await emitFn emit ret throw discard fst snd app].
  rewrite Hdb, Hall.
  destruct (updateOrderStatus env orderId Failed (Some (reasonOf err)))
    as [[]|e] eqn:F.
  - repeat split; eauto.
  - repeat split; eauto. intros H; discriminate H.
Qed.

Lemma quote_failure_fails_routing_witness :
  fst (processOrder raydiumDownEnv dummyOrder "order-5")
  = [statusOnly Pending; statusOnly Routing; failed "raydium unavailable"].
Proof.
  exact (proj1
    (quote_failure_fails_routing raydiumDownEnv dummyOrder "order-5" eq_refl
       (ErrorObj "Error" "raydium unavailable") eq_refl)).
Defined.

(** ** The submit endpoint of [server.js] *)

Ltac run_server :=
  cbv beta iota zeta
      delta [ServerJs.postExecute ServerJs.saveOrder ServerJs.setActiveOrder
             ServerJs.logOrder
             tryCatch bind await emit ret throw discard fst snd app].

Ltac settle_server :=
  run_server;
  repeat (match goal with
          | |- context [match ?o with Resolved _ => _ | Rejected _ => _ end] =>
              lazymatch o with
              | context [match _ with Resolved _ => _ | Rejected _ => _ end] =>
                  fail
              | _ => destruct o eqn:?
              end
          end; run_server).

(** An order whose amount and tokens are neither objects nor arrays can be
    written into the log line. *)
Lemma loggable_primitives (data : Ingress.JsVal) :
  (forall k, match Ingress.get data k with
             | Ingress.JObj _ | Ingress.JArr _ => False
             | _ => True
             end) ->
  ServerJs.loggable data = true.
Proof.
  intros H. unfold ServerJs.loggable.
  pose proof (H "amountIn") as Ha. pose proof (H "tokenIn") as Hi.
  pose proof (H "tokenOut") as Ho.
  destruct (Ingress.get data "amountIn"); try contradiction;
    destruct (Ingress.get data "tokenIn"); try contradiction;
    destruct (Ingress.get data "tokenOut"); try contradiction; reflexivity.
Qed.

(** An order that passes the guard and cannot be logged is answered 400
    'Invalid JSON' and reaches neither the stores nor the queue, while the
    same order with a token name is stored, cached and enqueued. *)
Example server_unprintable_order :
  Ingress.rejects unprintableOrder = false
  /\ ServerJs.postExecute serverStoresUp (Resolved unprintableOrder)
     = ([], Resolved (Ingress.Reply400 "Invalid JSON"))
  /\ ServerJs.postExecute serverStoresUp (Resolved negativeAmount)
     = ([ ServerJs.PoolInsert "1762074000000-9f3a0c71";
          ServerJs.RedisSetex "1762074000000-9f3a0c71";
          ServerJs.RedisSadd "1762074000000-9f3a0c71";
          ServerJs.QueueAdd "1762074000000-9f3a0c71" negativeAmount ],
        Resolved
          (Ingress.Reply200 "1762074000000-9f3a0c71"
             ("ws://localhost:3000/api/orders/execute"
              ++ "?orderId=1762074000000-9f3a0c71"))).
Proof. repeat split; vm_compute; reflexivity. Qed.

(** X16. The handler of [server.js] always answers.  A body that does not
    parse gets 400 'Invalid JSON'.  An order that fails the guard gets 400
    with the validation message, and no collaborator is called.  An order
    that passes the guard but cannot be written into the log line (its
    amount or a token is an object with a key toString, or an array holding
    one) also gets 400 'Invalid JSON', and no collaborator is called.
    Otherwise the queue is called once, with the new order id and the body;
    the reply is 200 with that id when the queue accepts and 400 'Invalid
    JSON' when it fails. *)
Theorem server_postExecute_replies :
  forall (sv : ServerJs.Services) (parsed : Outcome Ingress.JsVal),
    let run := ServerJs.postExecute sv parsed in
    let orderId := ServerJs.uuidv4 sv in
    (exists reply, snd run = Resolved reply)
    /\ (forall err, parsed = Rejected err ->
          run = ([], Resolved (Ingress.Reply400 ServerJs.invalidJson)))
    /\ (forall data, parsed = Resolved data ->
          Ingress.rejects data = true ->
          run = ([], Resolved (Ingress.Reply400 Ingress.invalidOrder)))
    /\ (forall data, parsed = Resolved data ->
          Ingress.rejects data = false ->
          ServerJs.loggable data = false ->
          run = ([], Resolved (Ingress.Reply400 ServerJs.invalidJson)))
    /\ (forall data, parsed = Resolved data ->
          Ingress.rejects data = false ->
          ServerJs.loggable data = true ->
          ServerJs.queueCalls (fst run) = [ServerJs.QueueAdd orderId data]
          /\ (ServerJs.queueAdd sv orderId data = Resolved tt ->
              snd run
              = Resolved
                  (Ingress.Reply200 orderId
                     ("ws://localhost:" ++ decimal (ServerJs.PORT sv)
                      ++ "/api/orders/execute?orderId=" ++ orderId)%string))
          /\ (forall err, ServerJs.queueAdd sv orderId data = Rejected err ->
              snd run = Resolved (Ingress.Reply400 ServerJs.invalidJson))).
Proof.
  intros sv parsed run orderId. subst run orderId.
  split; [|split; [|split; [|split]]].
  - unfold ServerJs.postExecute. destruct parsed as [data|e]; run_server;
      [|eauto].
    destruct (Ingress.rejects data); [run_server; eauto|].
    destruct (ServerJs.loggable data); settle_server; eauto.
  - intros err ->. reflexivity.
  - intros data -> R. unfold ServerJs.postExecute. run_server. rewrite R.
    reflexivity.
  - intros data -> R L. unfold ServerJs.postExecute. run_server.
    rewrite R, L. reflexivity.
  - intros data -> R L. unfold ServerJs.postExecute. run_server.
    rewrite R, L.
    settle_server; repeat split; intros;
      try match goal with
          | H : Resolved _ = Rejected _ |- _ => discriminate H
          | H : Rejected _ = Resolved _ |- _ => discriminate H
          end; reflexivity.
Qed.

(** X17. In [server.js] a failing store never blocks an order: the reply
    and the call made to the queue are the same whatever the database and
    the cache answer. *)
Theorem server_store_failures_do_not_block :
  forall (sv sv' : ServerJs.Services) (parsed : Outcome Ingress.JsVal),
    ServerJs.PORT sv = ServerJs.PORT sv' ->
    ServerJs.now sv = ServerJs.now sv' ->
    ServerJs.randomBytes sv = ServerJs.randomBytes sv' ->
    ServerJs.queueAdd sv = ServerJs.queueAdd sv' ->
    snd (ServerJs.postExecute sv parsed)
      = snd (ServerJs.postExecute sv' parsed)
    /\ ServerJs.queueCalls (fst (ServerJs.postExecute sv parsed))
       = ServerJs.queueCalls (fst (ServerJs.postExecute sv' parsed)).
Proof.
  intros sv sv' parsed HP Hn Hr Hq.
  unfold ServerJs.postExecute, ServerJs.uuidv4. rewrite HP, Hn, Hr, Hq.
  destruct parsed as [data|e]; run_server; [|split; reflexivity].
  destruct (Ingress.rejects data); [split; reflexivity|].
  destruct (ServerJs.loggable data); [|split; reflexivity].
  settle_server; split; reflexivity.
Qed.

Lemma server_store_failures_do_not_block_witness :
  snd (ServerJs.postExecute serverStoresDown (Resolved negativeAmount))
  = snd (ServerJs.postExecute serverStoresUp (Resolved negativeAmount)).
Proof.
  exact (proj1
    (server_store_failures_do_not_block serverStoresDown serverStoresUp
       (Resolved negativeAmount) eq_refl eq_refl eq_refl eq_refl)).
Defined.

(** ** The orders table of [lib/db-client.js] *)


Lemma updateOrderStatus_missing (orderId : string) (s : Status)
    (d : WorkerJs.Details) (t : DbClient.Table) :
  DbClient.getOrder orderId t = None ->
  snd (DbClient.updateOrderStatus orderId s d t) = t.
Proof.
  cbn [DbClient.updateOrderStatus snd].
  induction t as [|r t IH]; [reflexivity|]. cbn [map DbClient.getOrder].
  destruct (DbClient.id r =? orderId)%string; [discriminate|].
  intros H. rewrite (IH H). reflexivity.
Qed.

Lemma getOrder_app (j : string) (t u : DbClient.Table) :
  DbClient.getOrder j (t ++ u)
  = match DbClient.getOrder j t with
    | Some r => Some r
    | None => DbClient.getOrder j u
    end.
Proof.
  induction t as [|r t IH]; [reflexivity|]. cbn.
  destruct (DbClient.id r =? j)%string; [reflexivity | exact IH].
Qed.



(** X19. Status updates for an order that has no row write nothing and
    still report success: the table after any sequence of [emitStatus]
    writes is the table before, and each [updateOrderStatus] returns
    [success: true]. *)
Theorem updates_without_row_are_lost :
  forall (orderId : string) (events : list WorkerJs.Event)
         (s : Status) (d : WorkerJs.Details) (t : DbClient.Table),
    DbClient.getOrder orderId t = None ->
    DbClient.persistEvents orderId events t = t
    /\ DbClient.updateOrderStatus orderId s d t
       = ({| WorkerJs.success := true; WorkerJs.ackError := None |}, t).
Proof.
  intros orderId events s d t H. split.
  - unfold DbClient.persistEvents.
    induction events as [|e events IH]; [reflexivity|].
    cbn [fold_left]. rewrite (updateOrderStatus_missing _ _ _ _ H).
    exact IH.
  - pose proof (updateOrderStatus_missing orderId s d t H) as E.
    unfold DbClient.updateOrderStatus in *. cbn [snd] in E. rewrite E.
    reflexivity.
Qed.

Lemma updates_without_row_are_lost_witness :
  DbClient.persistEvents "o-1"
    [(Pending, WorkerJs.noDetails); (Building, WorkerJs.noDetails)]
    (snd (DbClient.saveOrder "o-2" "{}" []))
  = snd (DbClient.saveOrder "o-2" "{}" []).
Proof.
  exact (proj1
    (updates_without_row_are_lost "o-1"
       [(Pending, WorkerJs.noDetails); (Building, WorkerJs.noDetails)]
       Pending WorkerJs.noDetails
       (snd (DbClient.saveOrder "o-2" "{}" [])) eq_refl)).
Defined.

(** X20. Saving and reading orders: a new id gets one row with status
    pending and the payload given, which [getOrder] returns; saving an id
    that is already there reports failure and changes nothing, so the first
    payload stays; the rows of other ids are never affected. *)
Theorem saveOrder_getOrder :
  forall (orderId other payload : string) (t : DbClient.Table),
    (DbClient.getOrder orderId t = None ->
       fst (DbClient.saveOrder orderId payload t)
       = {| WorkerJs.success := true; WorkerJs.ackError := None |}
       /\ DbClient.getOrder orderId (snd (DbClient.saveOrder orderId payload t))
          = Some {| DbClient.id := orderId; DbClient.payload := payload;
                    DbClient.status := "pending";
                    DbClient.dex_chosen := None;
                    DbClient.quote_price := None;
                    DbClient.executed_price := None;
                    DbClient.tx_hash := None;
                    DbClient.last_error := None |})
    /\ (forall row, DbClient.getOrder orderId t = Some row ->
          DbClient.saveOrder orderId payload t
          = ({| WorkerJs.success := false;
                WorkerJs.ackError := Some DbClient.duplicateKey |}, t))
    /\ (other <> orderId ->
          DbClient.getOrder other (snd (DbClient.saveOrder orderId payload t))
          = DbClient.getOrder other t).
Proof.
  intros orderId other payload t. unfold DbClient.saveOrder.
  destruct (DbClient.getOrder orderId t) as [r|] eqn:G; cbn [fst snd].
  - split; [discriminate|]. split; [intros row _; reflexivity|].
    intros _. reflexivity.
  - split; [|split; [discriminate|]].
    + intros _. split; [reflexivity|]. rewrite getOrder_app, G. cbn.
      rewrite String.eqb_refl. reflexivity.
    + intros Hne. rewrite getOrder_app.
      destruct (DbClient.getOrder other t); [reflexivity|]. cbn.
      destruct (orderId =? other)%string eqn:E; [|reflexivity].
      apply String.eqb_eq in E. congruence.
Qed.




(** ** The request router of [server.js] *)

Lemma splitOn_slashFree (seg : string) :
  Routes.slashFree seg = true -> Routes.splitOn "/" seg = [seg].
Proof.
  induction seg as [|c seg IH]; [reflexivity|]. cbn.
  intros H. apply andb_true_iff in H as [Hc Hs].
  apply negb_true_iff in Hc. rewrite Hc, (IH Hs). reflexivity.
Qed.

Lemma splitOn_segment (seg more : string) :
  Routes.slashFree seg = true ->
  Routes.splitOn "/" (seg ++ String "/" more)%string
  = seg :: Routes.splitOn "/" more.
Proof.
  induction seg as [|c seg IH]; [reflexivity|]. cbn.
  intros H. apply andb_true_iff in H as [Hc Hs].
  apply negb_true_iff in Hc. rewrite Hc, (IH Hs). reflexivity.
Qed.

(** X22. Order lookups by path: for an id without a slash other than
    "execute", GET /api/orders/<id> is answered by the order-details
    handler for exactly that id, also when further path segments follow,
    and the handler answers with the order's row when the table has one and
    with 'Order not found' otherwise; GET /api/orders/execute is answered
    404 'Not Found'. *)
Theorem order_details_route :
  forall (seg more : string) (q : option string) (t : DbClient.Table),
    Routes.slashFree seg = true ->
    seg <> "execute" ->
    Routes.dispatch "GET" ("/api/orders/" ++ seg) q = Routes.OrderDetails seg
    /\ Routes.dispatch "GET" ("/api/orders/" ++ seg ++ String "/" more) q
       = Routes.OrderDetails seg
    /\ Routes.dispatch "GET" "/api/orders/execute" q = Routes.NotFound
    /\ (forall row, DbClient.getOrder seg t = Some row ->
          Routes.orderDetails t seg = Routes.Found row)
    /\ (DbClient.getOrder seg t = None ->
          Routes.orderDetails t seg = Routes.OrderNotFound).
Proof.
  intros seg more q t Hs Hne.
  assert (E : (seg =? "execute")%string = false)
    by (apply String.eqb_neq; exact Hne).
  split; [|split; [|split; [|split]]].
  - unfold Routes.dispatch.
    change (("/api/orders/" ++ seg)%string =? "/api/orders/execute")%string
      with (seg =? "execute")%string.
    rewrite E. cbn. rewrite splitOn_slashFree by exact Hs.
    destruct seg; reflexivity.
  - unfold Routes.dispatch.
    change (("/api/orders/" ++ seg ++ String "/" more)%string
            =? "/api/orders/execute")%string
      with ((seg ++ String "/" more)%string =? "execute")%string.
    assert (E' : ((seg ++ String "/" more)%string =? "execute")%string
                 = false).
    { apply String.eqb_neq. intros C.
      assert (S : Routes.slashFree (seg ++ String "/" more) = true)
        by (rewrite C; reflexivity).
      clear -S. induction seg as [|c seg IH]; cbn in S; [discriminate S|].
      apply andb_true_iff in S as [_ S]. auto. }
    rewrite E'. cbn. rewrite splitOn_segment by exact Hs.
    destruct seg; reflexivity.
  - reflexivity.
  - intros row H. unfold Routes.orderDetails. rewrite H. reflexivity.
  - intros H. unfold Routes.orderDetails. rewrite H. reflexivity.
Qed.

Lemma order_details_route_witness :
  Routes.dispatch "GET" "/api/orders/1762074000000-9f3a0c71" None
  = Routes.OrderDetails "1762074000000-9f3a0c71".
Proof.
  refine (proj1 (order_details_route "1762074000000-9f3a0c71" EmptyString
                   None [] eq_refl _)).
  intros H; discriminate H.
Defined.

(** ** The orders table of the TypeScript db module *)

Lemma db_getOrder_saveOrder (orderId : string) (p : Ingress.JsVal)
    (s : string) (t : Db.Table) :
  Db.getOrder orderId (Db.saveOrder orderId p s t)
  = Some {| Db.id := orderId; Db.payload := p; Db.status := s;
            Db.last_error :=
              match Db.getOrder orderId t with
              | Some r => Db.last_error r
              | None => None
              end |}.
Proof.
  induction t as [|r t IH]; cbn.
  - rewrite String.eqb_refl. reflexivity.
  - destruct (Db.id r =? orderId)%string eqn:E; cbn; rewrite E.
    + apply String.eqb_eq in E. rewrite E. reflexivity.
    + exact IH.
Qed.

Lemma db_getOrder_updateOrderStatus (orderId s : string)
    (e : option string) (t : Db.Table) :
  Db.getOrder orderId (Db.updateOrderStatus orderId s e t)
  = option_map
      (fun r =>
         {| Db.id := Db.id r; Db.payload := Db.payload r; Db.status := s;
            Db.last_error := match e with
                             | Some m => if isEmpty m then None else Some m
                             | None => None
                             end |})
      (Db.getOrder orderId t).
Proof.
  unfold Db.updateOrderStatus.
  induction t as [|r t IH]; [reflexivity|]. cbn [map Db.getOrder].
  destruct (Db.id r =? orderId)%string eqn:E.
  - cbn [Db.id]. rewrite E. reflexivity.
  - rewrite E. exact IH.
Qed.

Lemma db_saveOrder_length (orderId : string) (p : Ingress.JsVal)
    (s : string) (t : Db.Table) (r : Db.Row) :
  Db.getOrder orderId t = Some r ->
  List.length (Db.saveOrder orderId p s t) = List.length t.
Proof.
  induction t as [|x t IH]; cbn; [discriminate|].
  destruct (Db.id x =? orderId)%string; cbn; [reflexivity|].
  intros H. rewrite (IH H). reflexivity.
Qed.

(** X21. The row of an order across a failed attempt and its retry: after
    the order is saved as queued, a failed write records the reason, and
    the pending write of the next attempt, which passes no error, erases
    that reason while the payload saved at submission stays; saving the
    same id again replaces payload and status without adding a row. *)
Theorem retry_erases_recorded_failure :
  forall (orderId reason : string) (p p' : Ingress.JsVal) (t : Db.Table),
    isEmpty reason = false ->
    Db.getOrder orderId t = None ->
    let queued := Db.saveOrder orderId p "queued" t in
    let failedRow := Db.updateOrderStatus orderId "failed" (Some reason)
                       queued in
    let retried := Db.updateOrderStatus orderId "pending" None failedRow in
    Db.getOrder orderId failedRow
      = Some {| Db.id := orderId; Db.payload := p; Db.status := "failed";
                Db.last_error := Some reason |}
    /\ Db.getOrder orderId retried
       = Some {| Db.id := orderId; Db.payload := p; Db.status := "pending";
                 Db.last_error := None |}
    /\ Db.getOrder orderId (Db.saveOrder orderId p' "queued" retried)
       = Some {| Db.id := orderId; Db.payload := p'; Db.status := "queued";
                 Db.last_error := None |}
    /\ List.length (Db.saveOrder orderId p' "queued" retried)
       = List.length queued.
Proof.
  intros orderId reason p p' t Hr Hnone queued failedRow retried.
  assert (F : Db.getOrder orderId failedRow
              = Some {| Db.id := orderId; Db.payload := p;
                        Db.status := "failed";
                        Db.last_error := Some reason |}).
  { subst failedRow queued.
    rewrite db_getOrder_updateOrderStatus, db_getOrder_saveOrder, Hnone, Hr.
    reflexivity. }
  assert (R : Db.getOrder orderId retried
              = Some {| Db.id := orderId; Db.payload := p;
                        Db.status := "pending"; Db.last_error := None |}).
  { subst retried. rewrite db_getOrder_updateOrderStatus, F. reflexivity. }
  split; [exact F|]. split; [exact R|]. split.
  - rewrite db_getOrder_saveOrder, R. reflexivity.
  - rewrite (db_saveOrder_length orderId p' "queued" retried _ R).
    subst retried failedRow. unfold Db.updateOrderStatus.
    rewrite !length_map. reflexivity.
Qed.

Lemma retry_erases_recorded_failure_witness :
  Db.getOrder "order-3"
    (Db.updateOrderStatus "order-3" "pending" None
       (Db.updateOrderStatus "order-3" "failed" (Some "swap failed")
          (Db.saveOrder "order-3" negativeAmount "queued" [])))
  = Some {| Db.id := "order-3"; Db.payload := negativeAmount;
            Db.status := "pending"; Db.last_error := None |}.
Proof.
  exact (proj1 (proj2
    (retry_erases_recorded_failure "order-3" "swap failed" negativeAmount
       negativeAmount [] eq_refl eq_refl))).
Defined.

(** ** Collaborator failures at the Fastify endpoint *)

(** X23. At the Fastify endpoint a valid order is lost when a collaborator
    fails: if the store rejects, the handler rejects with that error after
    the store call alone, so nothing is enqueued; if the store accepts and
    the queue rejects, the order stays stored as queued and the handler
    rejects with the queue's error. *)
Theorem ingress_collaborator_failure_rejects :
  forall (sv : Ingress.Services) (body : Ingress.JsVal) (err : Thrown),
    Ingress.rejects body = false ->
    (Ingress.saveOrder sv (Ingress.uuidv4 sv) body "queued" = Rejected err ->
       Ingress.postExecute sv body
       = ([Ingress.SaveOrder (Ingress.uuidv4 sv) body "queued"],
          Rejected err))
    /\ (Ingress.saveOrder sv (Ingress.uuidv4 sv) body "queued" = Resolved tt ->
        Ingress.addOrder sv (Ingress.uuidv4 sv) body = Rejected err ->
        Ingress.postExecute sv body
        = ([Ingress.SaveOrder (Ingress.uuidv4 sv) body "queued";
            Ingress.AddOrder (Ingress.uuidv4 sv) body],
           Rejected err)).
Proof.
  intros sv body err R. unfold Ingress.postExecute. rewrite R. split.
  - intros S. run_engine. rewrite S. reflexivity.
  - intros S A. run_engine. rewrite S, A. reflexivity.
Qed.

Lemma ingress_collaborator_failure_rejects_witness :
  Ingress.postExecute storeDown negativeAmount
  = ([Ingress.SaveOrder (Ingress.uuidv4 storeDown) negativeAmount "queued"],
     Rejected dbDown).
Proof.
  exact (proj1
    (ingress_collaborator_failure_rejects storeDown negativeAmount dbDown
       eq_refl) eq_refl).
Defined.

